(** * BloxFruit stock monitor: a shallow embedding of [main.py]

    The program polls a stock API, fingerprints the answer, and fans a
    Discord notification out to a set of registered webhooks.  This file
    embeds the functions of [main.py] as state-passing Rocq functions
    and proves the properties of the change detector, the notification
    builder, the dispatcher, the registry handlers and the monitor loop.

    Conventions:
    - a decoded JSON document is a [json] value; Python's [None] is
      [JNull], a [dict] is an association list in insertion order;
    - a Python exception is a [Raise e] result; mutations made before an
      exception stay in the state, as in Python;
    - the outside world (HTTP, clock, [json.dumps], [hashlib.md5],
      [repr]) is an [Externals] instance. *)

From Stdlib Require Import ZArith String Ascii List DecimalString.
From Stdlib Require Import Floats.SpecFloat.
From stdpp Require Import base gmap sets list strings.

Open Scope string_scope.
Set Warnings "-register-all".

(** ** Python values obtained from [response.json()] *)

Inductive json : Type :=
| JNull
| JBool (b : bool)
| JInt (n : Z)
| JFloat (f : spec_float)
| JStr (s : string)
| JList (l : list json)
| JDict (kvs : list (string * json)).

(** Exception classes the program can meet.  Every subclass of
    [requests.exceptions.RequestException] (connection errors,
    [HTTPError] of [raise_for_status], the [JSONDecodeError] of
    [requests]) is [RequestException].  [ValueError] and
    [RecursionError] are what [response.json()] raises on a body with
    an integer of too many digits or with too deep a nesting; they are
    not [RequestException]s. *)
Inductive exn : Type :=
| RequestException
| TypeError
| AttributeError
| KeyError
| ValueError
| RecursionError
| HTTPException (status_code : Z) (detail : string).

Inductive result (A : Type) : Type :=
| Ok (a : A)
| Raise (e : exn).
Arguments Ok {A} a.
Arguments Raise {A} e.

(** *** Truthiness, [in], subscripting, [len], iteration, [dict.get] *)

(** [bool(v)]: what [if data] and [not data] test. *)
Definition py_truthy (v : json) : bool :=
  match v with
  | JNull => false
  | JBool b => b
  | JInt n => negb (n =? 0)%Z
  | JFloat (S754_zero _) => false
  | JFloat _ => true
  | JStr s => negb (String.eqb s "")
  | JList l => match l with [] => false | _ => true end
  | JDict kvs => match kvs with [] => false | _ => true end
  end.

(** [d[key]] on a dict held as an association list (keys are unique in a
    Python dict, so the first binding is the binding). *)
Fixpoint dict_lookup (key : string) (kvs : list (string * json)) : option json :=
  match kvs with
  | [] => None
  | (k, v) :: rest => if String.eqb k key then Some v else dict_lookup key rest
  end.

Definition is_str (key : string) (v : json) : bool :=
  match v with
  | JStr s => String.eqb s key
  | _ => false
  end.

Definition is_substring (key s : string) : bool :=
  match String.index 0 key s with
  | Some _ => true
  | None => false
  end.

(** [key in v] for a string [key]. *)
Definition py_contains (key : string) (v : json) : result bool :=
  match v with
  | JDict kvs => Ok (match dict_lookup key kvs with Some _ => true | None => false end)
  | JList l => Ok (existsb (is_str key) l)
  | JStr s => Ok (is_substring key s)
  | _ => Raise TypeError
  end.

(** [v[key]] for a string [key]. *)
Definition py_getitem (v : json) (key : string) : result json :=
  match v with
  | JDict kvs =>
      match dict_lookup key kvs with
      | Some x => Ok x
      | None => Raise KeyError
      end
  | _ => Raise TypeError
  end.

(** A Python [str] is a sequence of code points; a Rocq [string] holds
    its UTF-8 bytes.  [utf8_chars] cuts the bytes into code points. *)
Definition is_continuation (c : ascii) : bool :=
  let n := nat_of_ascii c in (128 <=? n)%nat && (n <? 192)%nat.

Fixpoint utf8_split (s : string) : string * list string :=
  match s with
  | EmptyString => (EmptyString, [])
  | String c rest =>
      let '(pending, chars) := utf8_split rest in
      if is_continuation c then (String c pending, chars)
      else (EmptyString, String c pending :: chars)
  end.

Definition utf8_chars (s : string) : list string := snd (utf8_split s).

(** [len(v)] *)
Definition py_len (v : json) : result nat :=
  match v with
  | JList l => Ok (length l)
  | JDict kvs => Ok (length kvs)
  | JStr s => Ok (length (utf8_chars s))
  | _ => Raise TypeError
  end.

(** The values [for item in v] runs through. *)
Definition py_iter (v : json) : result (list json) :=
  match v with
  | JList l => Ok l
  | JDict kvs => Ok (map (fun kv => JStr (fst kv)) kvs)
  | JStr s => Ok (map JStr (utf8_chars s))
  | _ => Raise TypeError
  end.

(** [item.get(key, default)]: only a dict has the method. *)
Definition py_get (item : json) (key : string) (default : json) : result json :=
  match item with
  | JDict kvs =>
      Ok (match dict_lookup key kvs with Some x => x | None => default end)
  | _ => Raise AttributeError
  end.

Definition decimal (n : Z) : string := NilZero.string_of_int (Z.to_int n).

(** ** Discord payload *)

Record footer : Type := {
  footer_text : string;
  footer_icon_url : string;
}.

Record field : Type := {
  field_name : string;
  field_value : string;
  field_inline : bool;
}.

(** The fallback embed of [main.py] has no ["fields"] key: [None]. *)
Record embed : Type := {
  title : string;
  description : string;
  color : Z;
  timestamp : string;
  embed_footer : footer;
  fields : option (list field);
}.

Record payload : Type := {
  username : string;
  avatar_url : string;
  embeds : list embed;
}.

(** ** HTTP as the [requests] library shows it *)

(** [json_body] is what [response.json()] returns.  [json_body = None]:
    the call raises, and [json_error] is the exception it raises
    ([RequestException] for a body that is not JSON, [ValueError] or
    [RecursionError] for a body the decoder gives up on). *)
Record response : Type := {
  status_code : Z;
  json_body : option json;
  json_error : exn;
}.

Inductive http_outcome : Type :=
| ConnectionFailed
| Responded (r : response).

(** [response.raise_for_status()]: [HTTPError] on 4xx and 5xx. *)
Definition raise_for_status (r : response) : result unit :=
  if ((400 <=? status_code r) && (status_code r <? 600))%Z
  then Raise RequestException
  else Ok tt.

Inductive http_call : Type :=
| CallGet (url : string) (o : http_outcome)
| CallPost (url : string) (body : payload) (o : http_outcome).

(** A call went through: an answer came and it was no error status. *)
Definition outcome_ok (o : http_outcome) : bool :=
  match o with
  | ConnectionFailed => false
  | Responded r => match raise_for_status r with Ok _ => true | Raise _ => false end
  end.

Definition delivered (c : http_call) : bool :=
  match c with
  | CallPost _ _ o => outcome_ok o
  | CallGet _ _ => false
  end.

Definition call_url (c : http_call) : string :=
  match c with
  | CallGet url _ => url
  | CallPost url _ _ => url
  end.

Definition is_request_exception (e : exn) : bool :=
  match e with
  | RequestException => true
  | _ => false
  end.

(** The exception of [response.json()] that [except RequestException]
    does not catch, if the answer has one: the call went through, the
    body does not decode, and the exception raised is of another
    class. *)
Definition decode_escapes (o : http_outcome) : option exn :=
  match o with
  | ConnectionFailed => None
  | Responded r =>
      if outcome_ok o
      then match json_body r with
           | Some _ => None
           | None =>
               if is_request_exception (json_error r) then None
               else Some (json_error r)
           end
      else None
  end.


(** ** What the program prints, one constructor per [print] *)

Inductive log_line : Type :=
| LogFetchError
| LogWebhookSent (webhook_url : string)
| LogWebhookError (webhook_url : string)
| LogSummary (success_count total_webhooks : nat)
| LogMonitorStart
| LogMonitorInterval
| LogCheck (current_time : string) (check_count : nat)
| LogChangeDetected
| LogNotified
| LogNotifyFailed
| LogNoChange
| LogNoData
| LogMonitorError (e : exn).

(** ** The outside world *)

Class Externals : Type := {
  world : Type;
  (** [requests.get(url)] and [requests.post(url, json=payload, ...)] *)
  requests_get : string -> world -> http_outcome * world;
  requests_post : string -> payload -> world -> http_outcome * world;
  (** [datetime.utcnow().isoformat()] and
      [datetime.now().strftime("%H:%M:%S")] *)
  utcnow_isoformat : world -> string * world;
  now_strftime : world -> string * world;
  (** [json.dumps(data, sort_keys=True)] and
      [hashlib.md5(s.encode()).hexdigest()] *)
  json_dumps_sorted : json -> string;
  md5_hexdigest : string -> string;
  (** [str(v)] of a float, a list or a dict *)
  py_repr : json -> string;
  (** the order in which [for webhook_url in webhook_urls] visits a
      set: every member, once *)
  set_iter : gset string -> list string;
  set_iter_perm : forall urls, set_iter urls ≡ₚ elements urls;
}.

(** ** Answers of the FastAPI handlers *)

Record JSONResponse (A : Type) : Type := {
  response_status : Z;
  content : A;
}.
Arguments response_status {A} _.
Arguments content {A} _.

Record add_content : Type := {
  add_message : string;
  webhook_added : string;
  add_total_webhooks : nat;
  check_interval : string;
}.

Record remove_content : Type := {
  remove_message : string;
  webhook_removed : string;
  remaining_webhooks : nat;
}.

Record webhooks_content : Type := {
  webhooks : list string;
  total_count : nat;
  webhooks_monitoring_active : bool;
}.

Record status_content : Type := {
  status_monitoring_active : bool;
  status_total_webhooks : nat;
  status_message : string;
}.

(** What [background_tasks.add_task] was given. *)
Inductive background_task : Type :=
| MonitorTask.

(** Where the monitor task stands after an iteration: suspended in
    [await asyncio.sleep(30)], or returned. *)
Inductive loop_status : Type :=
| Sleeping (check_count : nat)
| Exited.

Definition newline : string := String (ascii_of_nat 10) EmptyString.

Definition stock_api_url : string := "http://test-hub.kys.gay/api/stock/bloxfruit".
Definition icon_url : string := "https://cdn.discordapp.com/emojis/123456789.png".
Definition webhook_prefix : string := "https://discord.com/api/webhooks/".

Definition normal_title : string := "🔹 Normal Stock Update".
Definition mirage_title : string := "✨ Mirage Stock Update".
Definition fallback_title : string := "🍎 BloxFruit Stock Update".

Section Program.
Context `{Externals}.

(** ** Process state: the three globals of [main.py], the world, what
    was printed, and the outbound HTTP calls made so far. *)

Record state : Type := {
  previous_data_hash : option string;
  monitoring_active : bool;
  webhook_urls : gset string;
  net : world;
  stdout : list log_line;
  http_log : list http_call;
}.

Definition set_previous_data_hash (h : option string) (s : state) : state :=
  {| previous_data_hash := h;
     monitoring_active := monitoring_active s;
     webhook_urls := webhook_urls s;
     net := net s; stdout := stdout s; http_log := http_log s |}.

Definition set_monitoring_active (b : bool) (s : state) : state :=
  {| previous_data_hash := previous_data_hash s;
     monitoring_active := b;
     webhook_urls := webhook_urls s;
     net := net s; stdout := stdout s; http_log := http_log s |}.

Definition set_webhook_urls (urls : gset string) (s : state) : state :=
  {| previous_data_hash := previous_data_hash s;
     monitoring_active := monitoring_active s;
     webhook_urls := urls;
     net := net s; stdout := stdout s; http_log := http_log s |}.

Definition set_net (w : world) (s : state) : state :=
  {| previous_data_hash := previous_data_hash s;
     monitoring_active := monitoring_active s;
     webhook_urls := webhook_urls s;
     net := w; stdout := stdout s; http_log := http_log s |}.

Definition add_stdout (l : log_line) (s : state) : state :=
  {| previous_data_hash := previous_data_hash s;
     monitoring_active := monitoring_active s;
     webhook_urls := webhook_urls s;
     net := net s; stdout := stdout s ++ [l]; http_log := http_log s |}.

Definition add_http_log (c : http_call) (s : state) : state :=
  {| previous_data_hash := previous_data_hash s;
     monitoring_active := monitoring_active s;
     webhook_urls := webhook_urls s;
     net := net s; stdout := stdout s; http_log := http_log s ++ [c] |}.

(** The state at process start. *)
Definition initial_state (w : world) : state :=
  {| previous_data_hash := None;
     monitoring_active := false;
     webhook_urls := ∅;
     net := w; stdout := []; http_log := [] |}.

(** ** State and exception monad *)

Definition M (A : Type) : Type := state -> result A * state.

Definition ret {A : Type} (a : A) : M A := fun s => (Ok a, s).

Definition raise {A : Type} (e : exn) : M A := fun s => (Raise e, s).

Definition bind {A B : Type} (m : M A) (f : A -> M B) : M B :=
  fun s =>
    match m s with
    | (Ok a, s') => f a s'
    | (Raise e, s') => (Raise e, s')
    end.

Definition lift {A : Type} (r : result A) : M A := fun s => (r, s).

(** [try: body / except requests.exceptions.RequestException: handler] *)
Definition try_except_request {A : Type} (body handler : M A) : M A :=
  fun s =>
    match body s with
    | (Raise RequestException, s') => handler s'
    | other => other
    end.

Notation "'let!' x ':=' m 'in' k" := (bind m (fun x => k))
  (at level 10, x name, m at level 100, k at level 200).

Definition print (l : log_line) : M unit := fun s => (Ok tt, add_stdout l s).

Definition utcnow : M string :=
  fun s => let '(t, w) := utcnow_isoformat (net s) in (Ok t, set_net w s).

Definition now : M string :=
  fun s => let '(t, w) := now_strftime (net s) in (Ok t, set_net w s).

Definition of_outcome (o : http_outcome) : result response :=
  match o with
  | ConnectionFailed => Raise RequestException
  | Responded r => Ok r
  end.

Definition http_get (url : string) : M response :=
  fun s =>
    let '(o, w) := requests_get url (net s) in
    (of_outcome o, add_http_log (CallGet url o) (set_net w s)).

Definition http_post (url : string) (body : payload) : M response :=
  fun s =>
    let '(o, w) := requests_post url body (net s) in
    (of_outcome o, add_http_log (CallPost url body o) (set_net w s)).

(** [response.json()] *)
Definition response_json (r : response) : M json :=
  match json_body r with
  | Some v => ret v
  | None => raise (json_error r)
  end.

(** ** Fetcher *)

Definition get_bloxfruit_data : M json :=
  try_except_request
    (let! response := http_get stock_api_url in
     let! _ := lift (raise_for_status response) in
     response_json response)
    (let! _ := print LogFetchError in
     ret JNull).

(** ** Change detector *)

Definition get_data_hash (data : json) : option string :=
  if py_truthy data
  then Some (md5_hexdigest (json_dumps_sorted data))
  else None.

Definition has_data_changed (data : json) : M bool :=
  fun s =>
    let current_hash := get_data_hash data in
    match previous_data_hash s with
    | None => (Ok true, set_previous_data_hash current_hash s)
    | Some _ =>
        if bool_decide (current_hash ≠ previous_data_hash s)
        then (Ok true, set_previous_data_hash current_hash s)
        else (Ok false, s)
    end.

(** ** Notification builder (the embed part of [send_discord_webhook]) *)

(** [f"{v}"] *)
Definition py_str (v : json) : string :=
  match v with
  | JStr s => s
  | JNull => "None"
  | JBool true => "True"
  | JBool false => "False"
  | JInt n => decimal n
  | _ => py_repr v
  end.

(** Body of [for item in ..._items]: three [item.get] and one field. *)
Definition stock_field (icon : string) (item : json) : M field :=
  let! name := lift (py_get item "name" (JStr "Unknown")) in
  let! usd_price := lift (py_get item "usd_price" (JStr "N/A")) in
  let! robux_price := lift (py_get item "robux_price" (JStr "N/A")) in
  ret {| field_name := icon ++ " " ++ py_str name;
         field_value := "💰 **USD:** $" ++ py_str usd_price ++ newline
                        ++ "💎 **Robux:** " ++ py_str robux_price;
         field_inline := true |}.

(** The loop [for item in items: embed["fields"].append(...)]. *)
Fixpoint append_fields (icon : string) (items : list json) (acc : list field)
  : M (list field) :=
  match items with
  | [] => ret acc
  | item :: rest =>
      let! f := stock_field icon item in
      append_fields icon rest (acc ++ [f])%list
  end.

(** One stock embed: the dict literal (its [len] and its timestamp),
    then the loop over the items. *)
Definition stock_embed (title_ before after : string) (color_ : Z)
    (footer_ icon : string) (items : json) : M embed :=
  let! n := lift (py_len items) in
  let! stamp := utcnow in
  let! item_list := lift (py_iter items) in
  let! fs := append_fields icon item_list [] in
  ret {| title := title_;
         description := before ++ decimal (Z.of_nat n) ++ after;
         color := color_;
         timestamp := stamp;
         embed_footer := {| footer_text := footer_; footer_icon_url := icon_url |};
         fields := Some fs |}.

Definition normal_embed : json -> M embed :=
  stock_embed normal_title "📦 Có " " mặt hàng trong kho thường"
    0x3498db "BloxFruit Monitor • Normal Stock" "🍇".

Definition mirage_embed : json -> M embed :=
  stock_embed mirage_title "🌟 Có " " mặt hàng hiếm trong kho đặc biệt"
    0xe74c3c "BloxFruit Monitor • Mirage Stock" "⭐".

Definition fallback_embed (stamp : string) : embed :=
  {| title := fallback_title;
     description := "🔄 Stock đã được cập nhật nhưng không có dữ liệu mới";
     color := 0x95a5a6;
     timestamp := stamp;
     embed_footer := {| footer_text := "BloxFruit Monitor Bot";
                        footer_icon_url := icon_url |};
     fields := None |}.

(** [key in data and "items" in data[key]] *)
Definition has_items (data : json) (key : string) : M bool :=
  let! present := lift (py_contains key data) in
  if present
  then let! section := lift (py_getitem data key) in
       lift (py_contains "items" section)
  else ret false.

(** [data[key]["items"]] *)
Definition section_items (data : json) (key : string) : M json :=
  let! section := lift (py_getitem data key) in
  lift (py_getitem section "items").

(** Lines 55 to 126 of [main.py]: the list [embeds]. *)
Definition build_embeds (data : json) : M (list embed) :=
  let! normal := has_items data "normal_stock" in
  let! embeds1 :=
    (if normal
     then let! normal_items := section_items data "normal_stock" in
          let! e := normal_embed normal_items in
          ret [e]
     else ret []) in
  let! mirage := has_items data "mirage_stock" in
  let! embeds2 :=
    (if mirage
     then let! mirage_items := section_items data "mirage_stock" in
          let! e := mirage_embed mirage_items in
          ret (embeds1 ++ [e])%list
     else ret embeds1) in
  match embeds2 with
  | [] => let! stamp := utcnow in ret [fallback_embed stamp]
  | _ => ret embeds2
  end.

Definition make_payload (es : list embed) : payload :=
  {| username := "BloxFruit Monitor"; avatar_url := icon_url; embeds := es |}.

(** ** Dispatcher (the delivery part of [send_discord_webhook]) *)

(** One turn of [for webhook_url in webhook_urls]; yields the new
    [success_count]. *)
Definition deliver_one (body : payload) (success_count : nat) (webhook_url : string)
  : M nat :=
  try_except_request
    (let! response := http_post webhook_url body in
     let! _ := lift (raise_for_status response) in
     let! _ := print (LogWebhookSent webhook_url) in
     ret (S success_count))
    (let! _ := print (LogWebhookError webhook_url) in
     ret success_count).

Fixpoint deliver_all (body : payload) (urls : list string) (success_count : nat)
  : M nat :=
  match urls with
  | [] => ret success_count
  | webhook_url :: rest =>
      let! n := deliver_one body success_count webhook_url in
      deliver_all body rest n
  end.

Definition send_discord_webhook (data : json) (urls : gset string) : M bool :=
  if negb (py_truthy data) || bool_decide (urls = ∅)
  then ret false
  else
    let! es := build_embeds data in
    let body := make_payload es in
    let total_webhooks := size urls in
    let! success_count := deliver_all body (set_iter urls) 0 in
    let! _ := print (LogSummary success_count total_webhooks) in
    ret (0 <? success_count)%nat.

(** ** Monitor loop *)

(** Lines 170 to 188: fetch, detect, dispatch. *)
Definition monitor_cycle : M unit :=
  let! data := get_bloxfruit_data in
  if py_truthy data
  then
    let! changed := has_data_changed data in
    if changed
    then
      let! _ := print LogChangeDetected in
      let! success := (fun s => send_discord_webhook data (webhook_urls s) s) in
      if success then print LogNotified else print LogNotifyFailed
    else print LogNoChange
  else print LogNoData.

(** The body of [while monitoring_active], up to the [await]. *)
Definition monitor_body (check_count : nat) : M unit :=
  let! current_time := now in
  let! _ := print (LogCheck current_time check_count) in
  monitor_cycle.

(** What [monitor_task] does before its loop. *)
Definition monitor_start : M unit :=
  let! _ := (fun s => (Ok tt, set_monitoring_active true s)) in
  let! _ := print LogMonitorStart in
  print LogMonitorInterval.

(** One test of the loop condition and one body, inside the
    [try ... except Exception]. *)
Definition monitor_iteration (check_count : nat) (s : state) : loop_status * state :=
  if monitoring_active s
  then
    match monitor_body (S check_count) s with
    | (Ok _, s') => (Sleeping (S check_count), s')
    | (Raise e, s') =>
        (Exited, set_monitoring_active false (add_stdout (LogMonitorError e) s'))
    end
  else (Exited, s).

(** [fuel] wake-ups of the task. *)
Fixpoint monitor_loop (fuel check_count : nat) (s : state) : loop_status * state :=
  match fuel with
  | O => (Sleeping check_count, s)
  | S fuel' =>
      match monitor_iteration check_count s with
      | (Sleeping n, s') => monitor_loop fuel' n s'
      | (Exited, s') => (Exited, s')
      end
  end.

(** ** Request handlers *)

Definition add_webhook_and_start_monitoring (webhook : string)
  : M (JSONResponse add_content * list background_task) :=
  if String.eqb webhook ""
  then raise (HTTPException 400 "Webhook URL is required")
  else if negb (String.prefix webhook_prefix webhook)
  then raise (HTTPException 400 "Invalid Discord webhook URL")
  else fun s =>
    let s' := set_webhook_urls ({[ webhook ]} ∪ webhook_urls s) s in
    let '(tasks, message) :=
      if negb (monitoring_active s')
      then ([MonitorTask], "🚀 BloxFruit stock monitoring started!")
      else ([], "✅ Webhook added to existing monitoring") in
    (Ok ({| response_status := 200;
            content := {| add_message := message;
                          webhook_added := webhook;
                          add_total_webhooks := size (webhook_urls s');
                          check_interval := "30 seconds" |} |},
         tasks),
     s').

Definition remove_webhook (webhook : string) : M (JSONResponse remove_content) :=
  if String.eqb webhook ""
  then raise (HTTPException 400 "Webhook URL is required")
  else fun s =>
    if bool_decide (webhook ∈ webhook_urls s)
    then
      let s' := set_webhook_urls (webhook_urls s ∖ {[ webhook ]}) s in
      (Ok {| response_status := 200;
             content := {| remove_message := "✅ Webhook removed successfully";
                           webhook_removed := webhook;
                           remaining_webhooks := size (webhook_urls s') |} |},
       s')
    else (Raise (HTTPException 404 "Webhook not found"), s).

Definition get_current_stock : M json :=
  let! data := get_bloxfruit_data in
  if py_truthy data
  then ret data
  else raise (HTTPException 503 "Unable to fetch stock data").

Definition get_webhooks : M webhooks_content :=
  fun s =>
    (Ok {| webhooks := set_iter (webhook_urls s);
           total_count := size (webhook_urls s);
           webhooks_monitoring_active := monitoring_active s |},
     s).

Definition get_status : M status_content :=
  fun s =>
    (Ok {| status_monitoring_active := monitoring_active s;
           status_total_webhooks := size (webhook_urls s);
           status_message := if monitoring_active s
                             then "Monitoring is active"
                             else "Monitoring is not active" |},
     s).

(** ** Vocabulary of the properties *)

(** A fetch fails: no answer, or an error status. *)
Definition fetch_fails (w : world) : bool :=
  negb (outcome_ok (fst (requests_get stock_api_url w))).

(** Every registered webhook went through the check of the add
    handler. *)
Definition registry_valid (s : state) : Prop :=
  set_Forall (fun webhook => String.prefix webhook_prefix webhook = true)
    (webhook_urls s).

(** The outbound POST calls among the calls made. *)
Definition is_post (c : http_call) : bool :=
  match c with
  | CallPost _ _ _ => true
  | CallGet _ _ => false
  end.

Definition posts (calls : list http_call) : list http_call := filter is_post calls.

Definition call_body (c : http_call) : option payload :=
  match c with
  | CallPost _ body _ => Some body
  | CallGet _ _ => None
  end.

(** The line [send_discord_webhook] prints for one attempt. *)
Definition call_line (c : http_call) : log_line :=
  if delivered c then LogWebhookSent (call_url c) else LogWebhookError (call_url c).

Definition count_delivered (calls : list http_call) : nat :=
  length (filter delivered calls).

(** *** Frames: what a computation leaves alone *)

(** [preserves R m]: whatever [m] returns or raises, the state it
    leaves is [R]-related to the state it started from. *)
Definition preserves {A : Type} (R : relation state) (m : M A) : Prop :=
  forall s, R s (snd (m s)).

(** The three globals are untouched. *)
Definition same_globals : relation state :=
  fun s s' =>
    previous_data_hash s' = previous_data_hash s
    /\ monitoring_active s' = monitoring_active s
    /\ webhook_urls s' = webhook_urls s.

(** The registry and the activity flag are untouched. *)
Definition same_registry : relation state :=
  fun s s' =>
    monitoring_active s' = monitoring_active s
    /\ webhook_urls s' = webhook_urls s.

(** Nothing was sent and nothing but the world moved. *)
Definition only_world : relation state :=
  fun s s' => s' = set_net (net s') s.

(** The atomic steps of the process: the handlers and the monitor task
    run on one event loop and yield only at [await]; between two steps
    the world may move. *)
Inductive step : state -> state -> Prop :=
| step_add (webhook : string) (s : state) :
    step s (snd (add_webhook_and_start_monitoring webhook s))
| step_remove (webhook : string) (s : state) :
    step s (snd (remove_webhook webhook s))
| step_current_stock (s : state) :
    step s (snd (get_current_stock s))
| step_monitor_start (s : state) :
    step s (snd (monitor_start s))
| step_monitor_iteration (check_count : nat) (s : state) :
    step s (snd (monitor_iteration check_count s))
| step_world (w : world) (s : state) :
    step s (set_net w s).

Inductive reachable : state -> Prop :=
| reachable_initial (w : world) : reachable (initial_state w)
| reachable_step (s s' : state) : reachable s -> step s s' -> reachable s'.

End Program.

(** What a message group looks like from outside: its title and its
    number of fields. *)
Definition embed_shape (e : embed) : string * option nat :=
  (title e, option_map (@length field) (fields e)).

Definition is_dict (v : json) : bool :=
  match v with
  | JDict _ => true
  | _ => false
  end.

(** A section read as the data model types it: [Some None] when the
    snapshot has no such section or the section has no ["items"],
    [Some (Some items)] when it holds a list of item records, [None]
    for any other shape. *)
Definition section_view (kvs : list (string * json)) (key : string)
  : option (option (list json)) :=
  match dict_lookup key kvs with
  | None => Some None
  | Some (JDict section) =>
      match dict_lookup "items" section with
      | None => Some None
      | Some (JList items) =>
          if forallb is_dict items then Some (Some items) else None
      | Some _ => None
      end
  | Some _ => None
  end.

Definition section_group (title_ : string) (view : option (list json))
  : list (string * option nat) :=
  match view with
  | Some items => [(title_, Some (length items))]
  | None => []
  end.

Definition expected_groups (normal mirage : option (list json))
  : list (string * option nat) :=
  match section_group normal_title normal ++ section_group mirage_title mirage with
  | [] => [(fallback_title, None)]
  | groups => groups
  end.

(** ** A test double of the outside world *)

Module Demo.

(** A clock and the scripted answers of the stock API. *)
Record demo_world : Type := {
  clock : nat;
  script : list http_outcome;
}.

Definition tick (w : demo_world) : demo_world :=
  {| clock := S (clock w); script := script w |}.

Definition dead_webhook : string := "https://discord.com/api/webhooks/2/dead".
Definition webhook1 : string := "https://discord.com/api/webhooks/1/one".
Definition webhook3 : string := "https://discord.com/api/webhooks/3/three".

Definition demo_get (url : string) (w : demo_world) : http_outcome * demo_world :=
  match script w with
  | [] => (ConnectionFailed, tick w)
  | o :: rest => (o, {| clock := S (clock w); script := rest |})
  end.

Definition demo_post (url : string) (body : payload) (w : demo_world)
  : http_outcome * demo_world :=
  (Responded {| status_code := if String.eqb url dead_webhook then 404 else 204;
                json_body := None;
                json_error := RequestException |},
   tick w).

Definition demo_clock (w : demo_world) : string * demo_world :=
  ("t" ++ decimal (Z.of_nat (clock w)), tick w).

Definition quote (s : string) : string :=
  String (ascii_of_nat 34) s ++ String (ascii_of_nat 34) EmptyString.

Fixpoint insert_sorted (kv : string * string) (l : list (string * string))
  : list (string * string) :=
  match l with
  | [] => [kv]
  | kv' :: rest =>
      if String.leb (fst kv) (fst kv') then kv :: l
      else kv' :: insert_sorted kv rest
  end.

(** A plain serializer with sorted keys (no escapes, no float digits). *)
Fixpoint demo_dumps (v : json) : string :=
  match v with
  | JNull => "null"
  | JBool true => "true"
  | JBool false => "false"
  | JInt n => decimal n
  | JFloat _ => "float"
  | JStr s => quote s
  | JList l => "[" ++ String.concat ", " (map demo_dumps l) ++ "]"
  | JDict kvs =>
      "{" ++ String.concat ", "
               (map (fun kv => quote (fst kv) ++ ": " ++ snd kv)
                  (foldr insert_sorted []
                     (map (fun kv => let '(k, x) := kv in (k, demo_dumps x)) kvs)))
          ++ "}"
  end.

Definition externals : Externals :=
  {| world := demo_world;
     requests_get := demo_get;
     requests_post := demo_post;
     utcnow_isoformat := demo_clock;
     now_strftime := demo_clock;
     json_dumps_sorted := demo_dumps;
     md5_hexdigest := fun s => s;
     py_repr := demo_dumps;
     set_iter := elements;
     set_iter_perm := fun urls => reflexivity (elements urls) |}.

Definition ok_response (v : json) : http_outcome :=
  Responded {| status_code := 200; json_body := Some v;
               json_error := RequestException |}.

(** A 200 answer whose body holds an integer of too many digits:
    [response.json()] raises [ValueError]. *)
Definition long_integer_response : http_outcome :=
  Responded {| status_code := 200; json_body := None;
               json_error := ValueError |}.

Definition item (name : string) (usd robux : Z) : json :=
  JDict [("name", JStr name); ("usd_price", JInt usd); ("robux_price", JInt robux)].

(** Empty normal section, two mirage items. *)
Definition mirage_sections : list (string * json) :=
  [("normal_stock", JDict [("items", JList [])]);
   ("mirage_stock", JDict [("items", JList [item "Kitsune" 20 4000;
                                            item "Dragon" 25 5000])])].

Definition mirage_only : json := JDict mirage_sections.

(** Both sections there, both item lists empty. *)
Definition empty_sections : list (string * json) :=
  [("normal_stock", JDict [("items", JList [])]);
   ("mirage_stock", JDict [("items", JList [])])].

Definition both_empty : json := JDict empty_sections.

Definition three_webhooks : gset string := {[ webhook1; dead_webhook; webhook3 ]}.

(** An item that is a string, not a record. *)
Definition malformed : json :=
  JDict [("normal_stock", JDict [("items", JList [JStr "Kitsune"])])].

(** An item record with no key at all. *)
Definition bare_item : list (string * json) := [].

Definition start (answers : list http_outcome) : @state externals :=
  @initial_state externals {| clock := 0; script := answers |}.

(** A running process with the given registry and fingerprint. *)
Definition running (urls : gset string) (h : option string)
    (answers : list http_outcome) : @state externals :=
  @set_monitoring_active externals true
    (@set_previous_data_hash externals h
       (@set_webhook_urls externals urls (start answers))).

End Demo.

(** * Properties *)

Section Properties.
Context `{Externals}.

Notation "'let!' x ':=' m 'in' k" := (bind m (fun x => k))
  (at level 10, x name, m at level 100, k at level 200).

(** ** Running the monad *)

Lemma bind_ok {A B : Type} (m : M A) (f : A -> M B) (s s' : state) (a : A) :
  m s = (Ok a, s') -> bind m f s = f a s'.
Proof. intros Hm. unfold bind. now rewrite Hm. Qed.

Lemma bind_raise {A B : Type} (m : M A) (f : A -> M B) (s s' : state) (e : exn) :
  m s = (Raise e, s') -> bind m f s = (Raise e, s').
Proof. intros Hm. unfold bind. now rewrite Hm. Qed.

Lemma state_eta (s : state) :
  {| previous_data_hash := previous_data_hash s;
     monitoring_active := monitoring_active s;
     webhook_urls := webhook_urls s;
     net := net s; stdout := stdout s; http_log := http_log s |} = s.
Proof. now destruct s. Qed.

(** ** Frames *)

#[local] Instance same_globals_preorder : PreOrder same_globals.
Proof.
  split.
  - intros s. now repeat split.
  - intros s1 s2 s3 (Ha & Hb & Hc) (Ha' & Hb' & Hc').
    repeat split; congruence.
Qed.

#[local] Instance same_registry_preorder : PreOrder same_registry.
Proof.
  split.
  - intros s. now split.
  - intros s1 s2 s3 (Ha & Hb) (Ha' & Hb'). split; congruence.
Qed.

#[local] Instance only_world_preorder : PreOrder only_world.
Proof.
  split.
  - intros s. unfold only_world, set_net. now rewrite state_eta.
  - intros s1 s2 s3 H12 H23. unfold only_world in *.
    rewrite H23 at 1. rewrite H12 at 1. reflexivity.
Qed.

Lemma same_globals_registry (s s' : state) : same_globals s s' -> same_registry s s'.
Proof. intros (_ & Hb & Hc). now split. Qed.

Lemma only_world_globals (s s' : state) : only_world s s' -> same_globals s s'.
Proof. intros ->. now repeat split. Qed.

Section Frame.
Variable R : relation state.
Context `{!PreOrder R}.

Lemma preserves_ret {A : Type} (a : A) : preserves R (ret a).
Proof. intros s. simpl. reflexivity. Qed.

Lemma preserves_raise {A : Type} (e : exn) : preserves R (@raise _ A e).
Proof. intros s. simpl. reflexivity. Qed.

Lemma preserves_lift {A : Type} (r : result A) : preserves R (lift r).
Proof. intros s. simpl. reflexivity. Qed.

Lemma preserves_bind {A B : Type} (m : M A) (f : A -> M B) :
  preserves R m -> (forall a, preserves R (f a)) -> preserves R (bind m f).
Proof.
  intros Hm Hf s. unfold bind. specialize (Hm s).
  destruct (m s) as [[a | e] s1]; simpl in *.
  - etransitivity; [exact Hm | apply Hf].
  - exact Hm.
Qed.

Lemma preserves_try {A : Type} (body handler : M A) :
  preserves R body -> preserves R handler ->
  preserves R (try_except_request body handler).
Proof.
  intros Hb Hh s. unfold try_except_request. specialize (Hb s).
  destruct (body s) as [[a | e] s1]; simpl in *; [exact Hb |].
  destruct e; simpl; try exact Hb.
  etransitivity; [exact Hb | apply Hh].
Qed.

Lemma preserves_if {A : Type} (b : bool) (m1 m2 : M A) :
  preserves R m1 -> preserves R m2 -> preserves R (if b then m1 else m2).
Proof. now destruct b. Qed.

End Frame.

Lemma preserves_weaken {A : Type} (R R' : relation state) (m : M A) :
  (forall s s', R s s' -> R' s s') -> preserves R m -> preserves R' m.
Proof. intros Hsub Hm s. apply Hsub, Hm. Qed.

Ltac frame :=
  repeat match goal with
    | |- PreOrder _ => exact _
    | |- forall _, _ => intros ?
    | |- preserves _ (ret _) => apply preserves_ret
    | |- preserves _ (raise _) => apply preserves_raise
    | |- preserves _ (lift _) => apply preserves_lift
    | |- preserves _ (bind _ _) => apply preserves_bind
    | |- preserves _ (try_except_request _ _) => apply preserves_try
    | |- preserves _ (if _ then _ else _) => apply preserves_if
    | |- preserves _ (match ?l with [] => _ | _ :: _ => _ end) => destruct l
    end.

Create HintDb frame discriminated.

Lemma utcnow_only_world : preserves only_world utcnow.
Proof.
  intros s. unfold utcnow. destruct (utcnow_isoformat (net s)) as [t w].
  reflexivity.
Qed.

Lemma now_only_world : preserves only_world now.
Proof.
  intros s. unfold now. destruct (now_strftime (net s)) as [t w].
  reflexivity.
Qed.

Lemma print_same_globals (l : log_line) : preserves same_globals (print l).
Proof. intros s. now repeat split. Qed.

Lemma http_get_same_globals (url : string) : preserves same_globals (http_get url).
Proof.
  intros s. unfold http_get. destruct (requests_get url (net s)) as [o w].
  now repeat split.
Qed.

Lemma http_post_same_globals (url : string) (body : payload) :
  preserves same_globals (http_post url body).
Proof.
  intros s. unfold http_post. destruct (requests_post url body (net s)) as [o w].
  now repeat split.
Qed.

Lemma response_json_preserves (R : relation state) `{!PreOrder R} (r : response) :
  preserves R (response_json r).
Proof. unfold response_json. destruct (json_body r); frame. Qed.

#[local] Hint Resolve utcnow_only_world now_only_world print_same_globals
  http_get_same_globals http_post_same_globals : frame.
#[local] Hint Extern 1 (preserves _ (response_json _)) =>
  apply response_json_preserves; exact _ : frame.

Lemma to_registry {A : Type} (m : M A) :
  preserves same_globals m -> preserves same_registry m.
Proof. apply preserves_weaken, same_globals_registry. Qed.

Lemma to_globals {A : Type} (m : M A) :
  preserves only_world m -> preserves same_globals m.
Proof. apply preserves_weaken, only_world_globals. Qed.

Lemma get_bloxfruit_data_same_globals : preserves same_globals get_bloxfruit_data.
Proof. unfold get_bloxfruit_data. frame; auto with frame. Qed.

Lemma append_fields_only_world (icon : string) (items : list json) (acc : list field) :
  preserves only_world (append_fields icon items acc).
Proof.
  revert acc. induction items as [| item rest IH]; intros acc; simpl;
    unfold stock_field; frame.
  apply IH.
Qed.

#[local] Hint Resolve get_bloxfruit_data_same_globals append_fields_only_world : frame.

(** Building the embeds reads the clock and does nothing else. *)
Lemma build_embeds_only_world (data : json) : preserves only_world (build_embeds data).
Proof.
  unfold build_embeds, has_items, section_items, normal_embed, mirage_embed,
    stock_embed.
  frame; auto with frame.
Qed.

Lemma deliver_all_same_globals (body : payload) (urls : list string) (n : nat) :
  preserves same_globals (deliver_all body urls n).
Proof.
  revert n. induction urls as [| url rest IH]; intros n; simpl;
    unfold deliver_one; frame; auto with frame.
Qed.

#[local] Hint Resolve build_embeds_only_world deliver_all_same_globals : frame.

Lemma send_discord_webhook_same_globals (data : json) (urls : gset string) :
  preserves same_globals (send_discord_webhook data urls).
Proof.
  unfold send_discord_webhook. frame; auto using to_globals with frame.
Qed.

Lemma has_data_changed_same_registry (data : json) :
  preserves same_registry (has_data_changed data).
Proof.
  intros s. unfold has_data_changed.
  destruct (previous_data_hash s); [case_bool_decide |]; now split.
Qed.

#[local] Hint Resolve send_discord_webhook_same_globals
  has_data_changed_same_registry : frame.

Lemma monitor_cycle_same_registry : preserves same_registry monitor_cycle.
Proof.
  unfold monitor_cycle. frame; auto using to_registry with frame.
  intros s. apply same_globals_registry, send_discord_webhook_same_globals.
Qed.

Lemma monitor_body_same_registry (n : nat) : preserves same_registry (monitor_body n).
Proof.
  unfold monitor_body. frame;
    auto using to_registry, to_globals, monitor_cycle_same_registry with frame.
Qed.

(** ** Change detector *)

Lemma get_data_hash_falsy (data : json) :
  py_truthy data = false -> get_data_hash data = None.
Proof. intros Hd. unfold get_data_hash. now rewrite Hd. Qed.

Lemma get_data_hash_truthy (data : json) :
  py_truthy data = true ->
  get_data_hash data = Some (md5_hexdigest (json_dumps_sorted data)).
Proof. intros Hd. unfold get_data_hash. now rewrite Hd. Qed.

(** Whatever the stored fingerprint, a different one is stored and
    reported as a change. *)
Lemma has_data_changed_differs (data : json) (s : state) :
  get_data_hash data <> previous_data_hash s ->
  has_data_changed data s = (Ok true, set_previous_data_hash (get_data_hash data) s).
Proof.
  intros Hne. unfold has_data_changed.
  destruct (previous_data_hash s) as [h |] eqn:Hp; [| reflexivity].
  now rewrite bool_decide_eq_true_2.
Qed.

Lemma has_data_changed_same (data : json) (h : string) (s : state) :
  previous_data_hash s = Some h ->
  get_data_hash data = Some h ->
  has_data_changed data s = (Ok false, s).
Proof.
  intros Hp Hh. unfold has_data_changed. rewrite Hp, Hh.
  rewrite bool_decide_eq_false_2; [reflexivity | tauto].
Qed.

(** C5. For every non-empty snapshot, the first call of the change
    detector (no fingerprint stored yet) reports "changed" whatever the
    content and stores the fingerprint of the snapshot; a second call on
    a non-empty snapshot with the same canonical serialization reports
    "unchanged" and leaves the state as it is. *)
Theorem has_data_changed_first_then_same (data data' : json) (s : state) :
  py_truthy data = true ->
  previous_data_hash s = None ->
  py_truthy data' = true ->
  json_dumps_sorted data' = json_dumps_sorted data ->
  exists s1,
    has_data_changed data s = (Ok true, s1)
    /\ s1 = set_previous_data_hash (get_data_hash data) s
    /\ previous_data_hash s1 = Some (md5_hexdigest (json_dumps_sorted data))
    /\ has_data_changed data' s1 = (Ok false, s1).
Proof.
  intros Hd Hp Hd' Hsame.
  exists (set_previous_data_hash (get_data_hash data) s).
  rewrite (get_data_hash_truthy data Hd). repeat split.
  - unfold has_data_changed. rewrite Hp.
    now rewrite (get_data_hash_truthy data Hd).
  - apply (has_data_changed_same data' (md5_hexdigest (json_dumps_sorted data)));
      [reflexivity |].
    rewrite (get_data_hash_truthy data' Hd'). now rewrite Hsame.
Qed.

(** A cycle whose fetch gave an empty snapshot skips the detector. *)
Lemma monitor_cycle_no_data (data : json) (s s1 : state) :
  get_bloxfruit_data s = (Ok data, s1) ->
  py_truthy data = false ->
  monitor_cycle s = (Ok tt, add_stdout LogNoData s1)
  /\ previous_data_hash (add_stdout LogNoData s1) = previous_data_hash s.
Proof.
  intros Hfetch Hd. split.
  - unfold monitor_cycle. rewrite (bind_ok _ _ _ _ _ Hfetch). now rewrite Hd.
  - pose proof (get_bloxfruit_data_same_globals s) as (Hh & _).
    rewrite Hfetch in Hh. exact Hh.
Qed.

(** C2 (amended). For every absent or empty snapshot the change detector
    itself reports "changed" and sets the stored fingerprint to absent,
    whatever was stored; it is the monitor loop that keeps such a
    snapshot away from the detector: a cycle whose fetch yields it
    leaves the stored fingerprint as it was. *)
Theorem has_data_changed_empty_snapshot (data : json) (s : state) :
  py_truthy data = false ->
  has_data_changed data s = (Ok true, set_previous_data_hash None s)
  /\ forall s1,
       get_bloxfruit_data s = (Ok data, s1) ->
       monitor_cycle s = (Ok tt, add_stdout LogNoData s1)
       /\ previous_data_hash (add_stdout LogNoData s1) = previous_data_hash s.
Proof.
  intros Hd. split.
  - unfold has_data_changed. rewrite (get_data_hash_falsy data Hd).
    destruct (previous_data_hash s) as [h |] eqn:Hp; [| reflexivity].
    now rewrite bool_decide_eq_true_2.
  - intros s1 Hfetch. now apply (monitor_cycle_no_data data).
Qed.

(** ** Dispatcher *)

(** C9. When the snapshot is absent or empty the dispatcher returns
    failure at once, whatever the registered destinations: the state is
    untouched, so no delivery was attempted and nothing was printed. *)
Theorem send_discord_webhook_no_data (data : json) (urls : gset string) (s : state) :
  py_truthy data = false ->
  send_discord_webhook data urls s = (Ok false, s).
Proof.
  intros Hd. unfold send_discord_webhook. now rewrite Hd.
Qed.

Lemma send_discord_webhook_no_destination (data : json) (s : state) :
  send_discord_webhook data ∅ s = (Ok false, s).
Proof.
  unfold send_discord_webhook.
  rewrite (bool_decide_eq_true_2 (∅ = ∅)) by reflexivity.
  now rewrite orb_true_r.
Qed.

(** One attempt: one POST, one printed line, and the counter moves only
    when the call went through. *)
Lemma deliver_one_spec (body : payload) (n : nat) (url : string) (s : state) :
  exists o w,
    requests_post url body (net s) = (o, w)
    /\ deliver_one body n url s
       = (Ok (if outcome_ok o then S n else n),
          add_stdout (call_line (CallPost url body o))
            (add_http_log (CallPost url body o) (set_net w s))).
Proof.
  destruct (requests_post url body (net s)) as [o w] eqn:Hpost.
  exists o, w. split; [reflexivity |].
  unfold deliver_one, try_except_request, bind, http_post. rewrite Hpost.
  destruct o as [| r]; simpl; [reflexivity |].
  unfold lift, call_line, delivered, outcome_ok, raise_for_status.
  now destruct ((400 <=? status_code r)%Z && (status_code r <? 600)%Z).
Qed.

Lemma count_delivered_cons (c : http_call) (calls : list http_call) :
  count_delivered (c :: calls)
  = ((if delivered c then 1 else 0) + count_delivered calls)%nat.
Proof.
  unfold count_delivered. rewrite filter_cons.
  destruct (decide (delivered c)) as [Hc | Hc];
    destruct (delivered c); simpl in *;
    try reflexivity; try contradiction.
Qed.

(** The loop over the destinations: one POST of the same payload for
    every destination in turn, none skipped after a failure. *)
Lemma deliver_all_spec (body : payload) (urls : list string) (n : nat) (s : state) :
  exists calls s',
    deliver_all body urls n s = (Ok (n + count_delivered calls)%nat, s')
    /\ http_log s' = (http_log s ++ calls)%list
    /\ stdout s' = (stdout s ++ map call_line calls)%list
    /\ map call_url calls = urls
    /\ Forall (fun c => call_body c = Some body) calls.
Proof.
  revert n s. induction urls as [| url rest IH]; intros n s.
  - exists [], s. simpl. rewrite !app_nil_r, Nat.add_0_r. now repeat split.
  - destruct (deliver_one_spec body n url s) as (o & w & Hpost & Hone).
    set (c := CallPost url body o) in *.
    set (s1 := add_stdout (call_line c) (add_http_log c (set_net w s))) in *.
    destruct (IH (if outcome_ok o then S n else n) s1)
      as (calls & s' & Hall & Hlog & Hout & Hurls & Hbody).
    exists (c :: calls), s'. repeat split.
    + simpl. rewrite (bind_ok _ _ _ _ _ Hone), Hall.
      rewrite count_delivered_cons. simpl delivered.
      destruct (outcome_ok o); do 2 f_equal; lia.
    + rewrite Hlog. simpl. now rewrite <- app_assoc.
    + rewrite Hout. simpl. now rewrite <- app_assoc.
    + simpl. now rewrite Hurls.
    + now constructor.
Qed.

Lemma count_delivered_pos (calls : list http_call) :
  (0 <? count_delivered calls)%nat = true
  <-> Exists (fun c => delivered c = true) calls.
Proof.
  induction calls as [| c calls IH].
  - split; [discriminate | intros Hex; inversion Hex].
  - rewrite count_delivered_cons. split.
    + intros Hpos. destruct (delivered c) eqn:Hc.
      * now constructor.
      * apply Exists_cons_tl, IH. exact Hpos.
    + intros Hex. destruct (delivered c) eqn:Hc; [reflexivity |].
      inversion Hex as [? ? Hhd | ? ? Htl]; subst; [congruence |].
      now apply IH.
Qed.

Lemma only_world_logs (s s' : state) :
  only_world s s' -> http_log s' = http_log s /\ stdout s' = stdout s.
Proof. intros ->. now split. Qed.

(** The dispatcher past its guard and with the embeds built. *)
Lemma send_discord_webhook_built
    (data : json) (urls : gset string) (s s1 : state) (es : list embed) :
  py_truthy data = true ->
  urls <> ∅ ->
  build_embeds data s = (Ok es, s1) ->
  exists calls s2,
    send_discord_webhook data urls s = (Ok (0 <? count_delivered calls)%nat, s2)
    /\ http_log s2 = (http_log s ++ calls)%list
    /\ stdout s2
       = (stdout s ++ map call_line calls
            ++ [LogSummary (count_delivered calls) (size urls)])%list
    /\ map call_url calls = set_iter urls
    /\ Forall (fun c => call_body c = Some (make_payload es)) calls.
Proof.
  intros Hd Hurls Hbuild.
  destruct (deliver_all_spec (make_payload es) (set_iter urls) 0 s1)
    as (calls & s2 & Hall & Hlog & Hout & Hmap & Hbody).
  pose proof (build_embeds_only_world data s) as Hworld.
  rewrite Hbuild in Hworld. simpl in Hworld.
  apply only_world_logs in Hworld as [Hl Ho].
  exists calls, (add_stdout (LogSummary (count_delivered calls) (size urls)) s2).
  repeat split; try assumption.
  - unfold send_discord_webhook. rewrite Hd.
    rewrite (bool_decide_eq_false_2 (urls = ∅)) by assumption. simpl.
    rewrite (bind_ok _ _ _ _ _ Hbuild). cbv zeta.
    now rewrite (bind_ok _ _ _ _ _ Hall).
  - simpl. now rewrite Hlog, Hl.
  - simpl. rewrite Hout, Ho. now rewrite <- app_assoc.
Qed.

(** C3. For every set of destinations and every snapshot, the dispatcher
    returns overall success if and only if one delivery made during the
    call went through; the deliveries made are POSTs to registered
    destinations; and with an empty destination set it returns failure
    (and attempts nothing). *)
Theorem send_discord_webhook_success_iff (data : json) (urls : gset string) (s : state) :
  exists calls,
    http_log (snd (send_discord_webhook data urls s)) = (http_log s ++ calls)%list
    /\ Forall (fun c => is_post c = true /\ call_url c ∈ urls) calls
    /\ (fst (send_discord_webhook data urls s) = Ok true
        <-> Exists (fun c => delivered c = true) calls)
    /\ send_discord_webhook data ∅ s = (Ok false, s).
Proof.
  assert (Hnone : forall r : result bool,
             r <> Ok true ->
             r = Ok true <-> Exists (fun c => delivered c = true) []).
  { intros r Hr. split; [contradiction | intros Hex; inversion Hex]. }
  destruct (py_truthy data) eqn:Hd.
  2:{ exists []. rewrite (send_discord_webhook_no_data data urls s Hd).
      rewrite app_nil_r. repeat split; try constructor.
      - discriminate.
      - intros Hex. inversion Hex.
      - apply send_discord_webhook_no_destination. }
  destruct (decide (urls = ∅)) as [-> | Hurls].
  { exists []. rewrite send_discord_webhook_no_destination.
    rewrite app_nil_r. repeat split; try constructor.
    - discriminate.
    - intros Hex. inversion Hex. }
  destruct (build_embeds data s) as [[es | e] s1] eqn:Hbuild.
  - destruct (send_discord_webhook_built data urls s s1 es Hd Hurls Hbuild)
      as (calls & s2 & Hsend & Hlog & _ & Hmap & Hbody).
    exists calls. rewrite Hsend. simpl. repeat split.
    + exact Hlog.
    + apply Forall_forall. intros c Hc.
      rewrite Forall_forall in Hbody. specialize (Hbody c Hc).
      split; [destruct c; [discriminate | reflexivity] |].
      apply elem_of_elements. rewrite <- (set_iter_perm urls), <- Hmap.
      apply list_elem_of_fmap. now exists c.
    + intros Heq. apply count_delivered_pos. congruence.
    + intros Hex. f_equal. now apply count_delivered_pos.
    + apply send_discord_webhook_no_destination.
  - exists []. pose proof (build_embeds_only_world data s) as Hworld.
    rewrite Hbuild in Hworld. simpl in Hworld.
    apply only_world_logs in Hworld as [Hl _].
    assert (Hsend : send_discord_webhook data urls s = (Raise e, s1)).
    { unfold send_discord_webhook. rewrite Hd.
      rewrite (bool_decide_eq_false_2 (urls = ∅)) by assumption. simpl.
      now rewrite (bind_raise _ _ _ _ _ Hbuild). }
    rewrite Hsend, app_nil_r. simpl. repeat split; try constructor.
    + exact Hl.
    + discriminate.
    + intros Hex. inversion Hex.
    + apply send_discord_webhook_no_destination.
Qed.

(** C4. For every non-empty set of destinations, once the payload is
    built the dispatcher POSTs that full payload to each destination
    exactly once; a failed delivery does not stop the others; the
    summary line counts exactly the deliveries that went through, and
    the call succeeds when that count is positive. *)
Theorem send_discord_webhook_each_once
    (data : json) (urls : gset string) (s s1 : state) (es : list embed) :
  py_truthy data = true ->
  urls <> ∅ ->
  build_embeds data s = (Ok es, s1) ->
  exists calls s2,
    send_discord_webhook data urls s = (Ok (0 <? count_delivered calls)%nat, s2)
    /\ http_log s2 = (http_log s ++ calls)%list
    /\ map call_url calls ≡ₚ elements urls
    /\ length calls = size urls
    /\ Forall (fun c => call_body c = Some (make_payload es)) calls
    /\ stdout s2
       = (stdout s ++ map call_line calls
            ++ [LogSummary (count_delivered calls) (size urls)])%list.
Proof.
  intros Hd Hurls Hbuild.
  destruct (send_discord_webhook_built data urls s s1 es Hd Hurls Hbuild)
    as (calls & s2 & Hsend & Hlog & Hout & Hmap & Hbody).
  exists calls, s2. repeat split; try assumption.
  - rewrite Hmap. apply set_iter_perm.
  - rewrite <- (length_map call_url), Hmap, (set_iter_perm urls). reflexivity.
Qed.

(** ** Notification builder *)

Lemma append_fields_dicts (icon : string) (items : list json) (acc : list field)
    (s : state) :
  forallb is_dict items = true ->
  exists fs,
    append_fields icon items acc s = (Ok (acc ++ fs)%list, s)
    /\ length fs = length items.
Proof.
  revert acc. induction items as [| item rest IH]; intros acc Hall.
  - exists []. simpl. now rewrite app_nil_r.
  - simpl in Hall. apply andb_prop in Hall as [Hitem Hrest].
    destruct item; try discriminate.
    simpl. unfold stock_field, bind, lift, ret. simpl.
    match goal with
    | |- context [append_fields icon rest (acc ++ [?f])%list s] =>
        destruct (IH (acc ++ [f])%list Hrest) as (fs & Hfs & Hlen);
        exists (f :: fs)
    end.
    rewrite Hfs, <- app_assoc. simpl. now rewrite Hlen.
Qed.

(** A stock embed over a list of item records: one field per item. *)
Lemma stock_embed_items (t b a : string) (c : Z) (f i : string)
    (items : list json) (s : state) :
  forallb is_dict items = true ->
  exists e,
    stock_embed t b a c f i (JList items) s
    = (Ok e, set_net (snd (utcnow_isoformat (net s))) s)
    /\ embed_shape e = (t, Some (length items)).
Proof.
  intros Hall. unfold stock_embed, bind, lift, utcnow. simpl.
  destruct (utcnow_isoformat (net s)) as [stamp w]. simpl.
  destruct (append_fields_dicts i items [] (set_net w s) Hall)
    as (fs & Hfs & Hlen).
  rewrite Hfs. eexists. split; [reflexivity |].
  unfold embed_shape. simpl. now rewrite Hlen.
Qed.

Lemma has_items_view (kvs : list (string * json)) (key : string)
    (view : option (list json)) (s : state) :
  section_view kvs key = Some view ->
  has_items (JDict kvs) key s
  = (Ok (match view with Some _ => true | None => false end), s).
Proof.
  unfold section_view, has_items, bind, lift. simpl.
  destruct (dict_lookup key kvs) as [section |]; simpl.
  2:{ intros [= <-]. reflexivity. }
  destruct section as [| | | | | | sec]; try discriminate. simpl.
  destruct (dict_lookup "items" sec) as [items |]; simpl.
  2:{ intros [= <-]. reflexivity. }
  destruct items as [| | | | | l |]; try discriminate.
  destruct (forallb is_dict l); [| discriminate].
  intros [= <-]. reflexivity.
Qed.

Lemma section_items_view (kvs : list (string * json)) (key : string)
    (items : list json) (s : state) :
  section_view kvs key = Some (Some items) ->
  section_items (JDict kvs) key s = (Ok (JList items), s)
  /\ forallb is_dict items = true.
Proof.
  unfold section_view, section_items, bind, lift. simpl.
  destruct (dict_lookup key kvs) as [section |]; simpl; [| discriminate].
  destruct section as [| | | | | | sec]; try discriminate. simpl.
  destruct (dict_lookup "items" sec) as [v |]; simpl; [| discriminate].
  destruct v as [| | | | | l |]; try discriminate.
  destruct (forallb is_dict l) eqn:Hall; [| discriminate].
  intros [= <-]. now split.
Qed.

(** The body of one [if key in data and ...] block, for a section that
    holds item records: one embed, with one field per item. *)
Lemma section_block (kvs : list (string * json)) (key t b a : string)
    (c : Z) (f i : string) (items : list json) (g : embed -> list embed)
    (s : state) :
  section_view kvs key = Some (Some items) ->
  exists e,
    (let! its := section_items (JDict kvs) key in
     let! e := stock_embed t b a c f i its in
     ret (g e)) s
    = (Ok (g e), set_net (snd (utcnow_isoformat (net s))) s)
    /\ embed_shape e = (t, Some (length items)).
Proof.
  intros Hview.
  destruct (section_items_view kvs key items s Hview) as [Hitems Hall].
  destruct (stock_embed_items t b a c f i items s Hall) as (e & He & Hshape).
  exists e. split; [| exact Hshape].
  rewrite (bind_ok _ _ _ _ _ Hitems). cbv beta.
  now rewrite (bind_ok _ _ _ _ _ He).
Qed.

(** C1 (amended). The builder emits one message group for each
    recognized section that is present in the snapshot with an "items"
    entry, whether that item list is empty or not, with one field per
    item, in the order normal, mirage; the single fallback group is
    built exactly when no recognized section has an "items" entry
    (an entirely empty snapshot included). *)
Theorem build_embeds_groups (kvs : list (string * json))
    (normal mirage : option (list json)) (s : state) :
  section_view kvs "normal_stock" = Some normal ->
  section_view kvs "mirage_stock" = Some mirage ->
  exists es s',
    build_embeds (JDict kvs) s = (Ok es, s')
    /\ map embed_shape es = expected_groups normal mirage.
Proof.
  intros Hn Hm. unfold build_embeds.
  rewrite (bind_ok _ _ _ _ _ (has_items_view kvs _ normal s Hn)). cbv beta.
  destruct normal as [nitems |]; cbv iota.
  - destruct (section_block kvs "normal_stock" normal_title "📦 Có "
                " mặt hàng trong kho thường" 0x3498db%Z
                "BloxFruit Monitor • Normal Stock" "🍇" nitems
                (fun e => [e]) s Hn) as (e1 & He1 & Hs1).
    unfold normal_embed. rewrite (bind_ok _ _ _ _ _ He1). cbv beta.
    set (s1 := set_net (snd (utcnow_isoformat (net s))) s).
    rewrite (bind_ok _ _ _ _ _ (has_items_view kvs _ mirage s1 Hm)). cbv beta.
    destruct mirage as [mitems |]; cbv iota.
    + destruct (section_block kvs "mirage_stock" mirage_title "🌟 Có "
                  " mặt hàng hiếm trong kho đặc biệt" 0xe74c3c%Z
                  "BloxFruit Monitor • Mirage Stock" "⭐" mitems
                  (fun e => [e1] ++ [e])%list s1 Hm) as (e2 & He2 & Hs2).
      unfold mirage_embed. rewrite (bind_ok _ _ _ _ _ He2). cbv beta.
      eexists _, _. split; [reflexivity |].
      simpl. now rewrite Hs1, Hs2.
    + unfold bind at 1, ret at 1. cbv beta iota.
      eexists _, _. split; [reflexivity |].
      simpl. now rewrite Hs1.
  - unfold bind at 1, ret at 1. cbv beta iota.
    rewrite (bind_ok _ _ _ _ _ (has_items_view kvs _ mirage s Hm)). cbv beta.
    destruct mirage as [mitems |]; cbv iota.
    + destruct (section_block kvs "mirage_stock" mirage_title "🌟 Có "
                  " mặt hàng hiếm trong kho đặc biệt" 0xe74c3c%Z
                  "BloxFruit Monitor • Mirage Stock" "⭐" mitems
                  (fun e => [] ++ [e])%list s Hm) as (e2 & He2 & Hs2).
      unfold mirage_embed. rewrite (bind_ok _ _ _ _ _ He2). cbv beta.
      eexists _, _. split; [reflexivity |].
      simpl. now rewrite Hs2.
    + unfold bind at 1, ret at 1. cbv beta iota.
      unfold bind, utcnow, ret.
      destruct (utcnow_isoformat (net s)) as [stamp w].
      eexists _, _. split; reflexivity.
Qed.

(** ** Fetcher *)

Lemma fetch_fails_no_escape (w : world) :
  fetch_fails w = true ->
  decode_escapes (fst (requests_get stock_api_url w)) = None.
Proof.
  unfold fetch_fails, decode_escapes.
  destruct (fst (requests_get stock_api_url w)) as [| r]; [reflexivity |].
  now destruct (outcome_ok (Responded r)).
Qed.

(** The fetcher makes one GET.  It lets through the exception of
    [response.json()] that is no [RequestException]; otherwise it
    returns, and it answers [None] when the call did not go through. *)
Lemma get_bloxfruit_data_spec (s : state) :
  exists res s',
    get_bloxfruit_data s = (res, s')
    /\ same_globals s s'
    /\ http_log s'
       = (http_log s ++ [CallGet stock_api_url
                           (fst (requests_get stock_api_url (net s)))])%list
    /\ match decode_escapes (fst (requests_get stock_api_url (net s))) with
       | Some e => res = Raise e
       | None =>
           exists data,
             res = Ok data /\ (fetch_fails (net s) = true -> data = JNull)
       end.
Proof.
  pose proof (get_bloxfruit_data_same_globals s) as Hsame. revert Hsame.
  unfold get_bloxfruit_data, try_except_request, bind, http_get, fetch_fails,
    decode_escapes.
  destruct (requests_get stock_api_url (net s)) as [[| r] w]; simpl.
  { intros Hsame. eexists _, _. repeat split; try reflexivity; try apply Hsame.
    now exists JNull. }
  unfold lift, raise_for_status, response_json.
  destruct ((400 <=? status_code r)%Z && (status_code r <? 600)%Z); simpl.
  { intros Hsame. eexists _, _. repeat split; try reflexivity; try apply Hsame.
    now exists JNull. }
  destruct (json_body r) as [v |]; simpl.
  { intros Hsame. eexists _, _. repeat split; try reflexivity; try apply Hsame.
    exists v. split; [reflexivity | discriminate]. }
  unfold raise.
  destruct (json_error r); simpl; intros Hsame; eexists _, _;
    repeat split; try reflexivity; try apply Hsame.
  exists JNull. split; [reflexivity | discriminate].
Qed.

(** C6. For every fetch that fails (no answer from the network, or an
    error status), the fetcher returns the failure value [None] instead
    of raising, and the monitor cycle built on it ends normally with the
    stored fingerprint as it was. *)
Theorem fetch_failure_keeps_fingerprint (s : state) :
  fetch_fails (net s) = true ->
  exists s1,
    get_bloxfruit_data s = (Ok JNull, s1)
    /\ previous_data_hash s1 = previous_data_hash s
    /\ monitor_cycle s = (Ok tt, add_stdout LogNoData s1)
    /\ previous_data_hash (add_stdout LogNoData s1) = previous_data_hash s.
Proof.
  intros Hfail.
  destruct (get_bloxfruit_data_spec s) as (res & s1 & Hfetch & Hsame & _ & Hres).
  rewrite (fetch_fails_no_escape (net s) Hfail) in Hres.
  destruct Hres as (data & -> & Hnull).
  rewrite (Hnull Hfail) in Hfetch. exists s1.
  destruct Hsame as (Hhash & _).
  destruct (monitor_cycle_no_data JNull s s1 Hfetch eq_refl) as [Hcycle Hkeep].
  now repeat split.
Qed.

(** ** Registry handlers *)

Lemma prefix_not_empty (webhook : string) :
  String.prefix webhook_prefix webhook = true -> String.eqb webhook "" = false.
Proof. destruct webhook; [discriminate | reflexivity]. Qed.

Lemma set_webhook_urls_same (s : state) : set_webhook_urls (webhook_urls s) s = s.
Proof. apply state_eta. Qed.

(** C7 (amended). Registering again a destination that is already in
    the registry is answered like any registration (status 200, the
    identifier echoed as added, a message that depends only on the
    monitoring flag), with no "already present" report; the registry,
    its count and the rest of the state are unchanged. *)
Theorem add_webhook_already_present (webhook : string) (s : state) :
  registry_valid s ->
  webhook ∈ webhook_urls s ->
  add_webhook_and_start_monitoring webhook s
  = (Ok ({| response_status := 200;
            content :=
              {| add_message :=
                   if monitoring_active s
                   then "✅ Webhook added to existing monitoring"
                   else "🚀 BloxFruit stock monitoring started!";
                 webhook_added := webhook;
                 add_total_webhooks := size (webhook_urls s);
                 check_interval := "30 seconds" |} |},
         if monitoring_active s then [] else [MonitorTask]),
     s).
Proof.
  intros Hvalid Hin. pose proof (Hvalid webhook Hin) as Hprefix. simpl in Hprefix.
  unfold add_webhook_and_start_monitoring.
  rewrite (prefix_not_empty webhook Hprefix), Hprefix.
  change (negb true) with false. cbv beta iota.
  assert (Hsame : {[webhook]} ∪ webhook_urls s = webhook_urls s).
  { apply set_eq. intros x. rewrite elem_of_union, elem_of_singleton.
    split; [intros [-> | Hx]; assumption | now right]. }
  rewrite Hsame, set_webhook_urls_same.
  now destruct (monitoring_active s).
Qed.

(** C8 (amended). Removing an identifier that is not in the registry
    raises and leaves the state, hence the registry count, unchanged:
    "not found" (404) for a non-empty identifier, "Webhook URL is
    required" (400) for the empty one. *)
Theorem remove_webhook_not_registered (webhook : string) (s : state) :
  webhook ∉ webhook_urls s ->
  remove_webhook webhook s
  = (Raise (if String.eqb webhook ""
            then HTTPException 400 "Webhook URL is required"
            else HTTPException 404 "Webhook not found"),
     s)
  /\ size (webhook_urls (snd (remove_webhook webhook s))) = size (webhook_urls s).
Proof.
  intros Hnotin.
  assert (Hrun : remove_webhook webhook s
                 = (Raise (if String.eqb webhook ""
                           then HTTPException 400 "Webhook URL is required"
                           else HTTPException 404 "Webhook not found"), s)).
  { unfold remove_webhook. destruct (String.eqb webhook ""); [reflexivity |].
    now rewrite bool_decide_eq_false_2. }
  split; [exact Hrun | now rewrite Hrun].
Qed.

Lemma remove_webhook_registered (webhook : string) (s : state) :
  String.eqb webhook "" = false ->
  webhook ∈ webhook_urls s ->
  remove_webhook webhook s
  = (Ok {| response_status := 200;
           content :=
             {| remove_message := "✅ Webhook removed successfully";
                webhook_removed := webhook;
                remaining_webhooks := size (webhook_urls s ∖ {[webhook]}) |} |},
     set_webhook_urls (webhook_urls s ∖ {[webhook]}) s).
Proof.
  intros Hne Hin. unfold remove_webhook. rewrite Hne.
  now rewrite bool_decide_eq_true_2.
Qed.

(** ** Monitor loop against an empty registry *)

Lemma posts_snoc_get (calls : list http_call) (url : string) (o : http_outcome) :
  posts (calls ++ [CallGet url o]) = posts calls.
Proof. unfold posts. rewrite filter_app. simpl. apply app_nil_r. Qed.






(** ** The registry of a running process holds checked webhooks only *)

Lemma monitor_iteration_same_registry (n : nat) (s : state) :
  webhook_urls (snd (monitor_iteration n s)) = webhook_urls s.
Proof.
  unfold monitor_iteration. destruct (monitoring_active s); [| reflexivity].
  pose proof (monitor_body_same_registry (S n) s) as [_ Hurls].
  destruct (monitor_body (S n) s) as [[u | e] s']; exact Hurls.
Qed.

Lemma step_registry_valid (s s' : state) :
  step s s' -> registry_valid s -> registry_valid s'.
Proof.
  intros Hstep Hvalid. destruct Hstep as [webhook s | webhook s | s | s | n s | w s].
  - unfold add_webhook_and_start_monitoring.
    destruct (String.eqb webhook ""); [exact Hvalid |].
    destruct (String.prefix webhook_prefix webhook) eqn:Hprefix;
      [| exact Hvalid].
    change (negb true) with false. cbv beta iota.
    destruct (negb _); intros x Hx; simpl in Hx;
      apply elem_of_union in Hx as [Hx | Hx];
      try (apply elem_of_singleton in Hx; subst; exact Hprefix);
      now apply Hvalid.
  - unfold remove_webhook.
    destruct (String.eqb webhook ""); [exact Hvalid |].
    case_bool_decide; [| exact Hvalid].
    intros x Hx. simpl in Hx. apply elem_of_difference in Hx as [Hx _].
    now apply Hvalid.
  - assert (Hframe : preserves same_globals get_current_stock)
      by (unfold get_current_stock; frame; auto with frame).
    destruct (Hframe s) as (_ & _ & Hurls).
    unfold registry_valid. now rewrite Hurls.
  - exact Hvalid.
  - unfold registry_valid. now rewrite monitor_iteration_same_registry.
  - exact Hvalid.
Qed.

(** X5. In every state the process can reach from its start by
    handler calls, monitor steps and moves of the world, each
    registered webhook begins with the Discord webhook prefix. *)
Lemma reachable_registry_valid (s : state) : reachable s -> registry_valid s.
Proof.
  induction 1 as [w | s s' _ IH Hstep].
  - intros x Hx. now apply elem_of_empty in Hx.
  - now apply (step_registry_valid s s').
Qed.

(** ** More on the registry handlers *)

Lemma union_fresh_difference (webhook : string) (urls : gset string) :
  webhook ∉ urls -> ({[webhook]} ∪ urls) ∖ {[webhook]} = urls.
Proof.
  intros Hfresh. apply set_eq. intros x.
  rewrite elem_of_difference, elem_of_union, elem_of_singleton.
  split.
  - intros [[-> | Hx] Hne]; [contradiction | exact Hx].
  - intros Hx. split; [now right |]. intros ->. contradiction.
Qed.

Lemma size_union_fresh (webhook : string) (urls : gset string) :
  webhook ∉ urls -> size ({[webhook]} ∪ urls) = S (size urls).
Proof.
  intros Hfresh. rewrite size_union.
  - now rewrite size_singleton.
  - intros x Hx Hin. apply elem_of_singleton in Hx. subst x. contradiction.
Qed.

Lemma add_webhook_run (webhook : string) (s : state) :
  String.prefix webhook_prefix webhook = true ->
  add_webhook_and_start_monitoring webhook s
  = (Ok ({| response_status := 200;
            content :=
              {| add_message :=
                   if monitoring_active s
                   then "✅ Webhook added to existing monitoring"
                   else "🚀 BloxFruit stock monitoring started!";
                 webhook_added := webhook;
                 add_total_webhooks := size ({[webhook]} ∪ webhook_urls s);
                 check_interval := "30 seconds" |} |},
         if monitoring_active s then [] else [MonitorTask]),
     set_webhook_urls ({[webhook]} ∪ webhook_urls s) s).
Proof.
  intros Hprefix. unfold add_webhook_and_start_monitoring.
  rewrite (prefix_not_empty webhook Hprefix), Hprefix.
  change (negb true) with false. cbv beta iota.
  cbn [monitoring_active webhook_urls set_webhook_urls].
  now destruct (monitoring_active s).
Qed.

(** X1. Registering a well-formed webhook that is not yet registered
    puts it in the registry and nothing else changes; the answer is a
    200 that echoes the webhook and counts one more webhook than
    before, and a monitor task is scheduled exactly when monitoring
    was not active. *)
Theorem add_webhook_fresh (webhook : string) (s : state) :
  String.prefix webhook_prefix webhook = true ->
  webhook ∉ webhook_urls s ->
  exists r tasks s',
    add_webhook_and_start_monitoring webhook s = (Ok (r, tasks), s')
    /\ s' = set_webhook_urls ({[webhook]} ∪ webhook_urls s) s
    /\ webhook ∈ webhook_urls s'
    /\ size (webhook_urls s') = S (size (webhook_urls s))
    /\ response_status r = 200%Z
    /\ webhook_added (content r) = webhook
    /\ add_total_webhooks (content r) = S (size (webhook_urls s))
    /\ tasks = (if monitoring_active s then [] else [MonitorTask]).
Proof.
  intros Hprefix Hfresh. eexists _, _, _.
  split; [apply (add_webhook_run webhook s Hprefix) |].
  split; [reflexivity |]. simpl.
  split; [apply elem_of_union_l, elem_of_singleton; reflexivity |].
  rewrite (size_union_fresh webhook _ Hfresh). now repeat split.
Qed.

(** X2. A webhook that does not begin with the Discord webhook prefix
    is refused with status 400 and the state is left as it was; the
    detail is "Webhook URL is required" for the empty string and
    "Invalid Discord webhook URL" otherwise. *)
Theorem add_webhook_rejected (webhook : string) (s : state) :
  String.prefix webhook_prefix webhook = false ->
  add_webhook_and_start_monitoring webhook s
  = (Raise (HTTPException 400
              (if String.eqb webhook ""
               then "Webhook URL is required"
               else "Invalid Discord webhook URL")),
     s).
Proof.
  intros Hprefix. unfold add_webhook_and_start_monitoring.
  destruct (String.eqb webhook ""); [reflexivity |].
  now rewrite Hprefix.
Qed.

(** X3. Registering a fresh well-formed webhook and removing it again
    gives back the very state the process started from, and the remove
    answer counts the webhooks that were there before. *)
Theorem add_then_remove_webhook (webhook : string) (s : state) :
  String.prefix webhook_prefix webhook = true ->
  webhook ∉ webhook_urls s ->
  exists r,
    remove_webhook webhook (snd (add_webhook_and_start_monitoring webhook s))
    = (Ok r, s)
    /\ response_status r = 200%Z
    /\ webhook_removed (content r) = webhook
    /\ remaining_webhooks (content r) = size (webhook_urls s).
Proof.
  intros Hprefix Hfresh. rewrite (add_webhook_run webhook s Hprefix).
  cbn [snd].
  assert (Hin : webhook ∈ webhook_urls
                  (set_webhook_urls ({[webhook]} ∪ webhook_urls s) s)).
  { cbn [webhook_urls set_webhook_urls].
    apply elem_of_union_l, elem_of_singleton. reflexivity. }
  rewrite (remove_webhook_registered webhook _
             (prefix_not_empty webhook Hprefix) Hin).
  cbn [webhook_urls set_webhook_urls].
  rewrite (union_fresh_difference webhook _ Hfresh).
  assert (Hback : set_webhook_urls (webhook_urls s)
                    (set_webhook_urls ({[webhook]} ∪ webhook_urls s) s) = s)
    by (destruct s; reflexivity).
  rewrite Hback. eexists. split; [reflexivity |]. now repeat split.
Qed.

(** X4. After a registered webhook is removed it is no longer in the
    registry, the registry is one smaller, and removing it a second
    time is refused with 404 without touching the state. *)
Theorem remove_webhook_twice (webhook : string) (s : state) :
  String.eqb webhook "" = false ->
  webhook ∈ webhook_urls s ->
  exists r s1,
    remove_webhook webhook s = (Ok r, s1)
    /\ (webhook ∉ webhook_urls s1)
    /\ S (size (webhook_urls s1)) = size (webhook_urls s)
    /\ remaining_webhooks (content r) = size (webhook_urls s1)
    /\ remove_webhook webhook s1
       = (Raise (HTTPException 404 "Webhook not found"), s1).
Proof.
  intros Hne Hin. eexists _, _.
  split; [apply (remove_webhook_registered webhook s Hne Hin) |].
  assert (Hgone : webhook ∉ webhook_urls s ∖ {[webhook]}).
  { rewrite elem_of_difference, elem_of_singleton. tauto. }
  split; [exact Hgone |]. split.
  - cbn [webhook_urls set_webhook_urls].
    rewrite size_difference by (now apply singleton_subseteq_l).
    rewrite size_singleton.
    assert (size (webhook_urls s) <> 0).
    { apply size_non_empty_iff. intros Hempty.
      apply (Hempty webhook) in Hin. now apply elem_of_empty in Hin. }
    lia.
  - split; [reflexivity |].
    unfold remove_webhook. rewrite Hne.
    now rewrite bool_decide_eq_false_2.
Qed.

(** ** More on the change detector *)

(** X6. Whatever the snapshot and the state, the change detector
    returns without raising and leaves as stored fingerprint the
    fingerprint of the snapshot it was given; it answers "unchanged"
    exactly when a fingerprint was stored and equals the new one. *)
Theorem has_data_changed_stores_current (data : json) (s : state) :
  exists b,
    has_data_changed data s
    = (Ok b, set_previous_data_hash (get_data_hash data) s)
    /\ (b = false
        <-> exists h, previous_data_hash s = Some h
                      /\ get_data_hash data = Some h).
Proof.
  unfold has_data_changed.
  destruct (previous_data_hash s) as [h |] eqn:Hp.
  - case_bool_decide as Hcmp.
    + exists true. split; [reflexivity |].
      split; [discriminate |]. intros (h' & [= <-] & Hsame). congruence.
    + exists false. split.
      * f_equal. rewrite Hcmp.
        unfold set_previous_data_hash. rewrite <- Hp. symmetry. apply state_eta.
      * split; [| reflexivity]. intros _. exists h. now split.
  - exists true. split; [reflexivity |].
    split; [discriminate |]. intros (h' & [=] & _).
Qed.

(** X7. For a non-empty snapshot, a second call of the detector right
    after a first one on the same snapshot reports "unchanged" and
    changes nothing, whatever fingerprint was or was not stored
    before the first call. *)
Theorem has_data_changed_twice (data : json) (s : state) :
  py_truthy data = true ->
  has_data_changed data (snd (has_data_changed data s))
  = (Ok false, snd (has_data_changed data s)).
Proof.
  intros Hd.
  assert (Hstored : previous_data_hash (snd (has_data_changed data s))
                    = Some (md5_hexdigest (json_dumps_sorted data))).
  { rewrite <- (get_data_hash_truthy data Hd). unfold has_data_changed.
    destruct (previous_data_hash s) as [h |] eqn:Hp; [| reflexivity].
    case_bool_decide as Hcmp; [reflexivity |].
    cbn [snd]. congruence. }
  apply (has_data_changed_same data _ _ Hstored).
  apply (get_data_hash_truthy data Hd).
Qed.

(** ** More on the builder and the dispatcher *)

Lemma bind_raise_inv {A B : Type} (m : M A) (f : A -> M B) (s s' : state) (e : exn) :
  bind m f s = (Raise e, s') ->
  m s = (Raise e, s')
  \/ exists a s1, m s = (Ok a, s1) /\ f a s1 = (Raise e, s').
Proof.
  unfold bind. destruct (m s) as [[a | e0] s1]; intros Hrun.
  - right. now exists a, s1.
  - left. injection Hrun as -> ->. reflexivity.
Qed.

Lemma bind_ok_inv {A B : Type} (m : M A) (f : A -> M B) (s s' : state) (b : B) :
  bind m f s = (Ok b, s') ->
  exists a s1, m s = (Ok a, s1) /\ f a s1 = (Ok b, s').
Proof.
  unfold bind. destruct (m s) as [[a | e0] s1]; intros Hrun.
  - now exists a, s1.
  - discriminate.
Qed.

(** The [in] tests and subscripts of one section never raise
    [KeyError]: each subscript comes after an [in] test. *)
Lemma has_items_raises (data : json) (key : string) (s s' : state) (e : exn) :
  has_items data key s = (Raise e, s') -> e = TypeError.
Proof.
  unfold has_items, bind, lift.
  destruct data as [| | | | str | l | kvs]; simpl; try (now intros [= <- _]).
  - destruct (is_substring key str); [now intros [= <- _] | discriminate].
  - destruct (existsb (is_str key) l); [now intros [= <- _] | discriminate].
  - destruct (dict_lookup key kvs) as [section |]; [| discriminate].
    destruct section; simpl; try discriminate; now intros [= <- _].
Qed.

Lemma section_items_raises (data : json) (key : string)
    (s s' s2 s3 : state) (e : exn) :
  has_items data key s = (Ok true, s') ->
  section_items data key s2 = (Raise e, s3) ->
  e = TypeError.
Proof.
  unfold has_items, section_items, bind, lift.
  destruct data as [| | | | str | l | kvs]; simpl; try discriminate.
  - destruct (is_substring key str); discriminate.
  - destruct (existsb (is_str key) l); discriminate.
  - destruct (dict_lookup key kvs) as [section |]; [| discriminate].
    destruct section as [| | | | str | l | sec]; simpl; try discriminate;
      try (now intros _ [= <- _]).
    destruct (dict_lookup "items" sec); [discriminate |].
    discriminate.
Qed.

Lemma stock_field_raises (icon : string) (item : json) (s s' : state) (e : exn) :
  stock_field icon item s = (Raise e, s') -> e = AttributeError.
Proof.
  destruct item; now intros [= <- _].
Qed.

Lemma append_fields_raises (icon : string) (items : list json) (acc : list field)
    (s s' : state) (e : exn) :
  append_fields icon items acc s = (Raise e, s') -> e = AttributeError.
Proof.
  revert acc s. induction items as [| item rest IH]; intros acc s; simpl.
  - discriminate.
  - intros Hrun. apply bind_raise_inv in Hrun as [Hrun | (f & s1 & _ & Hrun)].
    + now apply (stock_field_raises icon item s s').
    + exact (IH _ s1 Hrun).
Qed.

Lemma stock_embed_raises (t b a : string) (c : Z) (f i : string) (items : json)
    (s s' : state) (e : exn) :
  stock_embed t b a c f i items s = (Raise e, s') ->
  e = TypeError \/ e = AttributeError.
Proof.
  unfold stock_embed. intros Hrun.
  apply bind_raise_inv in Hrun as [Hrun | (n & s1 & _ & Hrun)].
  { left. unfold lift in Hrun. destruct items; simpl in Hrun;
      try discriminate; now injection Hrun as <- _. }
  apply bind_raise_inv in Hrun as [Hrun | (stamp & s2 & _ & Hrun)].
  { unfold utcnow in Hrun. destruct (utcnow_isoformat (net s1)). discriminate. }
  apply bind_raise_inv in Hrun as [Hrun | (its & s3 & _ & Hrun)].
  { left. unfold lift in Hrun. destruct items; simpl in Hrun;
      try discriminate; now injection Hrun as <- _. }
  apply bind_raise_inv in Hrun as [Hrun | (fs & s4 & _ & Hrun)].
  - right. now apply (append_fields_raises i its [] s3 s').
  - discriminate.
Qed.

(** The body of one [if key in data and "items" in data[key]] block,
    once the test has been made: it raises only [TypeError] or
    [AttributeError], and it adds at most one embed. *)
Lemma section_block_cases (data : json) (key t b a : string) (c : Z) (f i : string)
    (acc : list embed) (g : embed -> list embed) (present : bool)
    (s0 s1 s : state) :
  (forall x, g x = acc ++ [x])%list ->
  has_items data key s0 = (Ok present, s1) ->
  match (if present
         then let! its := section_items data key in
              let! x := stock_embed t b a c f i its in
              ret (g x)
         else ret acc) s with
  | (Ok es, _) => es = acc \/ exists x, es = (acc ++ [x])%list
  | (Raise e, _) => e = TypeError \/ e = AttributeError
  end.
Proof.
  intros Hg Hhas. destruct present; [| now left].
  unfold bind at 1.
  destruct (section_items data key s) as [[its | e] s2] eqn:Hits.
  2:{ left. now apply (section_items_raises data key s0 s1 s s2). }
  unfold bind at 1.
  destruct (stock_embed t b a c f i its s2) as [[x | e] s3] eqn:Hembed.
  - right. exists x. apply Hg.
  - now apply (stock_embed_raises t b a c f i its s2 s3).
Qed.

(** The two blocks and the fallback of [build_embeds] as one case
    analysis. *)
Lemma build_embeds_cases (data : json) (s : state) :
  match build_embeds data s with
  | (Ok es, _) => (1 <= length es <= 2)%nat
  | (Raise e, _) => e = TypeError \/ e = AttributeError
  end.
Proof.
  unfold build_embeds, normal_embed, mirage_embed.
  unfold bind at 1.
  destruct (has_items data "normal_stock" s) as [[normal | e] s1] eqn:Hn.
  2:{ left. now apply (has_items_raises data "normal_stock" s s1). }
  unfold bind at 1.
  pose proof (section_block_cases data "normal_stock" normal_title "📦 Có "
                " mặt hàng trong kho thường" 0x3498db%Z
                "BloxFruit Monitor • Normal Stock" "🍇" [] (fun x => [x])
                normal s s1 s1 (fun x => eq_refl) Hn) as Hblock1.
  cbv beta in Hblock1.
  match type of Hblock1 with
  | match ?blk with _ => _ end => destruct blk as [[embeds1 | e] s2]
  end; [| exact Hblock1].
  unfold bind at 1.
  destruct (has_items data "mirage_stock" s2) as [[mirage | e] s3] eqn:Hm.
  2:{ left. now apply (has_items_raises data "mirage_stock" s2 s3). }
  unfold bind at 1.
  pose proof (section_block_cases data "mirage_stock" mirage_title "🌟 Có "
                " mặt hàng hiếm trong kho đặc biệt" 0xe74c3c%Z
                "BloxFruit Monitor • Mirage Stock" "⭐" embeds1
                (fun x => embeds1 ++ [x])%list
                mirage s2 s3 s3 (fun x => eq_refl) Hm) as Hblock2.
  cbv beta in Hblock2.
  match type of Hblock2 with
  | match ?blk with _ => _ end => destruct blk as [[embeds2 | e] s4]
  end; [| exact Hblock2].
  assert (Hlen : (length embeds2 <= 2)%nat).
  { destruct Hblock1 as [-> | (x1 & ->)];
      destruct Hblock2 as [-> | (x2 & ->)]; simpl; lia. }
  destruct embeds2 as [| e2 rest].
  - unfold bind, utcnow, ret. destruct (utcnow_isoformat (net s4)). simpl. lia.
  - unfold ret. simpl in *. lia.
Qed.

(** X8. Whatever the snapshot, the embeds list that is built is never
    empty and never holds more than two embeds; when building fails it
    fails with [TypeError] or [AttributeError], never with [KeyError]. *)
Theorem build_embeds_one_or_two (data : json) (s : state) :
  (forall es s',
     build_embeds data s = (Ok es, s') -> (1 <= length es <= 2)%nat)
  /\ (forall e s',
        build_embeds data s = (Raise e, s') ->
        e = TypeError \/ e = AttributeError).
Proof.
  pose proof (build_embeds_cases data s) as Hcases.
  split.
  - intros es s' Hrun. now rewrite Hrun in Hcases.
  - intros e s' Hrun. now rewrite Hrun in Hcases.
Qed.

(** X9. An item record that lacks a key gets the default text in its
    field ("Unknown" for the name, "N/A" for a price), and building the
    field of a record never raises; a price that is present but null is
    shown as "None", not as "N/A". *)
Theorem stock_field_defaults (icon : string) (kvs : list (string * json)) (s : state) :
  exists f,
    stock_field icon (JDict kvs) s = (Ok f, s)
    /\ field_inline f = true
    /\ (dict_lookup "name" kvs = None -> field_name f = icon ++ " Unknown")
    /\ (dict_lookup "usd_price" kvs = None ->
        dict_lookup "robux_price" kvs = None ->
        field_value f
        = "💰 **USD:** $N/A" ++ newline ++ "💎 **Robux:** N/A")
    /\ (dict_lookup "usd_price" kvs = Some JNull ->
        dict_lookup "robux_price" kvs = Some JNull ->
        field_value f
        = "💰 **USD:** $None" ++ newline ++ "💎 **Robux:** None").
Proof.
  eexists. split; [reflexivity |]. cbn [field_inline field_name field_value].
  split; [reflexivity |]. split; [| split].
  - intros ->. reflexivity.
  - intros -> ->. reflexivity.
  - intros -> ->. reflexivity.
Qed.

(** X10. When the dispatcher raises, the exception is a [TypeError] or
    an [AttributeError] that comes from building the embeds of a
    malformed snapshot: it is raised before any delivery, nothing was
    printed, and the three globals are as they were. *)
Theorem send_discord_webhook_raises
    (data : json) (urls : gset string) (s s' : state) (e : exn) :
  send_discord_webhook data urls s = (Raise e, s') ->
  (e = TypeError \/ e = AttributeError)
  /\ build_embeds data s = (Raise e, s')
  /\ http_log s' = http_log s
  /\ stdout s' = stdout s
  /\ same_globals s s'.
Proof.
  unfold send_discord_webhook.
  destruct (negb (py_truthy data) || bool_decide (urls = ∅)); [discriminate |].
  intros Hrun. apply bind_raise_inv in Hrun as [Hbuild | (es & s1 & _ & Hrun)].
  - pose proof (build_embeds_cases data s) as Hcases.
    pose proof (build_embeds_only_world data s) as Hworld.
    rewrite Hbuild in Hcases, Hworld. simpl in Hworld.
    destruct (only_world_logs s s' Hworld) as [Hlog Hout].
    repeat split; try assumption; apply (only_world_globals s s' Hworld).
  - exfalso. cbv zeta in Hrun.
    destruct (deliver_all_spec (make_payload es) (set_iter urls) 0 s1)
      as (calls & s2 & Hall & _).
    rewrite (bind_ok _ _ _ _ _ Hall) in Hrun. discriminate.
Qed.

(** ** More on the fetcher *)


(** A 200 answer whose body makes the decoder raise [ValueError]: the
    exception leaves the fetcher. *)
Example get_bloxfruit_data_escapes :
  fst (@get_bloxfruit_data Demo.externals
         (Demo.start [Demo.long_integer_response]))
  = Raise ValueError.
Proof. reflexivity. Qed.

(** X12. When the stock API answers without error status, the
    current-stock handler returns the decoded document if it is
    truthy, and raises 503 "Unable to fetch stock data" if the
    document is empty ([{}], [[]], [0], [""], [null]), as it does for a
    failed fetch; the three globals are untouched. *)
Theorem get_current_stock_answer (s : state) (r : response) (w : world) (v : json) :
  requests_get stock_api_url (net s) = (Responded r, w) ->
  outcome_ok (Responded r) = true ->
  json_body r = Some v ->
  fst (get_current_stock s)
  = (if py_truthy v
     then Ok v
     else Raise (HTTPException 503 "Unable to fetch stock data"))
  /\ same_globals s (snd (get_current_stock s)).
Proof.
  intros Hget Hok Hbody. split.
  - unfold get_current_stock, get_bloxfruit_data, try_except_request, bind, http_get.
    rewrite Hget. simpl. unfold lift.
    unfold outcome_ok in Hok. destruct (raise_for_status r); [| discriminate].
    unfold response_json. rewrite Hbody. simpl.
    now destruct (py_truthy v).
  - assert (Hframe : preserves same_globals get_current_stock)
      by (unfold get_current_stock; frame; auto with frame).
    apply Hframe.
Qed.

(** ** More on the monitor loop *)

Lemma monitor_iteration_cases (n : nat) (s : state) :
  match monitor_iteration n s with
  | (Sleeping k, s') =>
      k = S n /\ monitoring_active s = true /\ monitoring_active s' = true
      /\ webhook_urls s' = webhook_urls s
  | (Exited, s') =>
      monitoring_active s' = false /\ webhook_urls s' = webhook_urls s
  end.
Proof.
  unfold monitor_iteration.
  destruct (monitoring_active s) eqn:Hactive; [| now split].
  pose proof (monitor_body_same_registry (S n) s) as [Hact Hurls].
  destruct (monitor_body (S n) s) as [[u | e] s']; simpl in *.
  - repeat split; congruence.
  - now split.
Qed.

(** X13. An iteration of the monitor task never changes the registry;
    it ends in the sleep, with the next check number, only if
    monitoring was active before and is active after; otherwise it
    returns with the monitoring flag false (the flag was already
    false, or the body raised). *)
Theorem monitor_iteration_outcome (n : nat) (s s' : state) (st : loop_status) :
  monitor_iteration n s = (st, s') ->
  webhook_urls s' = webhook_urls s
  /\ match st with
     | Sleeping k =>
         k = S n /\ monitoring_active s = true /\ monitoring_active s' = true
     | Exited => monitoring_active s' = false
     end.
Proof.
  intros Hrun. pose proof (monitor_iteration_cases n s) as Hcases.
  rewrite Hrun in Hcases. destruct st.
  - destruct Hcases as (Hk & Hs & Hs' & Hurls). now repeat split.
  - destruct Hcases as (Hs' & Hurls). now split.
Qed.

Lemma get_data_hash_some_truthy (data : json) (h : string) :
  get_data_hash data = Some h -> py_truthy data = true.
Proof. unfold get_data_hash. now destruct (py_truthy data). Qed.

Lemma fetch_keeps_hash (data : json) (s s1 : state) :
  get_bloxfruit_data s = (Ok data, s1) ->
  same_globals s s1 /\ posts (http_log s1) = posts (http_log s).
Proof.
  intros Hfetch.
  destruct (get_bloxfruit_data_spec s) as (res & s' & Hrun & Hsame & Hlog & _).
  rewrite Hfetch in Hrun. injection Hrun as <- <-.
  split; [exact Hsame |]. rewrite Hlog. apply posts_snoc_get.
Qed.

(** X14. A monitor cycle that fetches a snapshot whose fingerprint is
    the stored one sends nothing: it prints the "no change" line and
    leaves the fingerprint, the flag and the registry as they were. *)
Theorem monitor_cycle_unchanged (data : json) (h : string) (s s1 : state) :
  get_bloxfruit_data s = (Ok data, s1) ->
  previous_data_hash s = Some h ->
  get_data_hash data = Some h ->
  monitor_cycle s = (Ok tt, add_stdout LogNoChange s1)
  /\ same_globals s (add_stdout LogNoChange s1)
  /\ posts (http_log (add_stdout LogNoChange s1)) = posts (http_log s).
Proof.
  intros Hfetch Hstored Hhash.
  destruct (fetch_keeps_hash data s s1 Hfetch) as [Hsame Hposts].
  split; [| split; [exact Hsame | exact Hposts]].
  unfold monitor_cycle. rewrite (bind_ok _ _ _ _ _ Hfetch). cbv beta.
  rewrite (get_data_hash_some_truthy data h Hhash).
  destruct Hsame as (Hh & _).
  assert (Hstored1 : previous_data_hash s1 = Some h) by congruence.
  now rewrite (bind_ok _ _ _ _ _ (has_data_changed_same data h s1 Hstored1 Hhash)).
Qed.

(** The cycle up to the dispatch, for a fetched snapshot that is new. *)
Lemma monitor_cycle_changed (data : json) (s s1 : state) :
  get_bloxfruit_data s = (Ok data, s1) ->
  py_truthy data = true ->
  get_data_hash data <> previous_data_hash s ->
  monitor_cycle s
  = (let! success :=
       (fun s2 => send_discord_webhook data (webhook_urls s) s2) in
     if success then print LogNotified else print LogNotifyFailed)
      (add_stdout LogChangeDetected
         (set_previous_data_hash (get_data_hash data) s1)).
Proof.
  intros Hfetch Hd Hnew.
  destruct (fetch_keeps_hash data s s1 Hfetch) as [(Hh & _ & Hurls) _].
  unfold monitor_cycle. rewrite (bind_ok _ _ _ _ _ Hfetch). cbv beta.
  rewrite Hd.
  assert (Hnew1 : get_data_hash data <> previous_data_hash s1) by congruence.
  rewrite (bind_ok _ _ _ _ _ (has_data_changed_differs data s1 Hnew1)).
  cbv beta iota. unfold bind at 1, print at 1. cbv beta iota.
  unfold bind. cbn [webhook_urls add_stdout set_previous_data_hash].
  now rewrite Hurls.
Qed.

(** X15. A monitor cycle that fetches a new well-built snapshot while
    webhooks are registered stores the new fingerprint and POSTs the
    payload once to each registered webhook, then prints whether at
    least one delivery went through. *)
Theorem monitor_cycle_notifies
    (data : json) (s s1 s3 : state) (es : list embed) :
  get_bloxfruit_data s = (Ok data, s1) ->
  py_truthy data = true ->
  get_data_hash data <> previous_data_hash s ->
  webhook_urls s <> ∅ ->
  build_embeds data
    (add_stdout LogChangeDetected
       (set_previous_data_hash (get_data_hash data) s1)) = (Ok es, s3) ->
  exists calls s',
    monitor_cycle s = (Ok tt, s')
    /\ previous_data_hash s' = get_data_hash data
    /\ http_log s' = (http_log s1 ++ calls)%list
    /\ map call_url calls ≡ₚ elements (webhook_urls s)
    /\ Forall (fun c => call_body c = Some (make_payload es)) calls
    /\ last (stdout s')
       = Some (if (0 <? count_delivered calls)%nat
               then LogNotified else LogNotifyFailed).
Proof.
  intros Hfetch Hd Hnew Hurls Hbuild.
  rewrite (monitor_cycle_changed data s s1 Hfetch Hd Hnew).
  set (s2 := add_stdout LogChangeDetected
               (set_previous_data_hash (get_data_hash data) s1)) in *.
  destruct (send_discord_webhook_built data (webhook_urls s) s2 s3 es
              Hd Hurls Hbuild)
    as (calls & s4 & Hsend & Hlog & _ & Hmap & Hbody).
  pose proof (send_discord_webhook_same_globals data (webhook_urls s) s2)
    as (Hh & _).
  rewrite Hsend in Hh. cbn [snd] in Hh.
  exists calls. rewrite (bind_ok _ _ _ _ _ Hsend).
  destruct (0 <? count_delivered calls)%nat; eexists;
    (split; [reflexivity |]); cbn [previous_data_hash http_log stdout add_stdout];
    (split; [exact Hh |]); (split; [exact Hlog |]);
    (split; [rewrite Hmap; apply set_iter_perm |]);
    (split; [exact Hbody |]); apply last_snoc.
Qed.

(** X16. A change that is fetched while no webhook is registered is
    used up: the new fingerprint is stored, nothing is sent and the
    failure line is printed, so the same snapshot fetched again after a
    registration counts as unchanged. *)
Theorem monitor_cycle_change_without_webhook (data : json) (s s1 : state) :
  get_bloxfruit_data s = (Ok data, s1) ->
  py_truthy data = true ->
  get_data_hash data <> previous_data_hash s ->
  webhook_urls s = ∅ ->
  monitor_cycle s
  = (Ok tt,
     add_stdout LogNotifyFailed
       (add_stdout LogChangeDetected
          (set_previous_data_hash (get_data_hash data) s1))).
Proof.
  intros Hfetch Hd Hnew Hempty.
  rewrite (monitor_cycle_changed data s s1 Hfetch Hd Hnew), Hempty.
  now rewrite (bind_ok _ _ _ _ _ (send_discord_webhook_no_destination data _)).
Qed.

(** X17. A new snapshot whose embeds cannot be built makes the cycle
    raise the builder's exception, after the new fingerprint was stored
    and before anything was sent. *)
Theorem monitor_cycle_malformed
    (data : json) (s s1 s3 : state) (e : exn) :
  get_bloxfruit_data s = (Ok data, s1) ->
  py_truthy data = true ->
  get_data_hash data <> previous_data_hash s ->
  webhook_urls s <> ∅ ->
  build_embeds data
    (add_stdout LogChangeDetected
       (set_previous_data_hash (get_data_hash data) s1)) = (Raise e, s3) ->
  monitor_cycle s = (Raise e, s3)
  /\ previous_data_hash s3 = get_data_hash data
  /\ posts (http_log s3) = posts (http_log s).
Proof.
  intros Hfetch Hd Hnew Hurls Hbuild.
  rewrite (monitor_cycle_changed data s s1 Hfetch Hd Hnew).
  set (s2 := add_stdout LogChangeDetected
               (set_previous_data_hash (get_data_hash data) s1)) in *.
  assert (Hsend : send_discord_webhook data (webhook_urls s) s2 = (Raise e, s3)).
  { unfold send_discord_webhook. rewrite Hd.
    rewrite (bool_decide_eq_false_2 (webhook_urls s = ∅)) by assumption.
    simpl. now rewrite (bind_raise _ _ _ _ _ Hbuild). }
  pose proof (build_embeds_only_world data s2) as Hworld.
  rewrite Hbuild in Hworld. cbn [snd] in Hworld.
  destruct (fetch_keeps_hash data s s1 Hfetch) as [_ Hposts].
  split; [now rewrite (bind_raise _ _ _ _ _ Hsend) |].
  rewrite Hworld. cbn. split; [reflexivity | exact Hposts].
Qed.

(** ** Starting the monitor task *)

(** X18. On a stopped monitor the first registration schedules the
    monitor task; once that task has started, a further registration
    schedules nothing, leaves monitoring active, and the registry the
    task reads holds both webhooks. *)
Theorem registration_after_start (w1 w2 : string) (s : state) :
  String.prefix webhook_prefix w1 = true ->
  String.prefix webhook_prefix w2 = true ->
  monitoring_active s = false ->
  exists r1 r2 s1 s2 s3,
    add_webhook_and_start_monitoring w1 s = (Ok (r1, [MonitorTask]), s1)
    /\ monitor_start s1 = (Ok tt, s2)
    /\ monitoring_active s2 = true
    /\ add_webhook_and_start_monitoring w2 s2 = (Ok (r2, []), s3)
    /\ monitoring_active s3 = true
    /\ webhook_urls s3 = {[w2]} ∪ ({[w1]} ∪ webhook_urls s).
Proof.
  intros H1 H2 Hstopped.
  eexists _, _, _, _, _.
  split; [rewrite (add_webhook_run w1 s H1), Hstopped; reflexivity |].
  split; [reflexivity |]. split; [reflexivity |].
  split; [rewrite (add_webhook_run w2 _ H2); reflexivity |].
  split; reflexivity.
Qed.

(** X19. The add handler does not set the monitoring flag itself: two
    registrations handled before the scheduled task has started both
    schedule a monitor task. *)
Theorem registration_twice_before_start (w1 w2 : string) (s : state) :
  String.prefix webhook_prefix w1 = true ->
  String.prefix webhook_prefix w2 = true ->
  monitoring_active s = false ->
  exists r1 r2 s1 s2,
    add_webhook_and_start_monitoring w1 s = (Ok (r1, [MonitorTask]), s1)
    /\ monitoring_active s1 = false
    /\ add_webhook_and_start_monitoring w2 s1 = (Ok (r2, [MonitorTask]), s2)
    /\ monitoring_active s2 = false.
Proof.
  intros H1 H2 Hstopped.
  eexists _, _, _, _.
  split; [rewrite (add_webhook_run w1 s H1), Hstopped; reflexivity |].
  split; [exact Hstopped |].
  split; [rewrite (add_webhook_run w2 _ H2); cbn [monitoring_active set_webhook_urls];
          rewrite Hstopped; reflexivity |].
  exact Hstopped.
Qed.

(** X20. After the monitor task has returned, whatever made it return,
    the next accepted registration schedules a new monitor task. *)
Theorem registration_restarts_monitor (n : nat) (webhook : string) (s s1 : state) :
  monitor_iteration n s = (Exited, s1) ->
  String.prefix webhook_prefix webhook = true ->
  exists r s2,
    add_webhook_and_start_monitoring webhook s1 = (Ok (r, [MonitorTask]), s2)
    /\ webhook ∈ webhook_urls s2.
Proof.
  intros Hexit Hprefix. pose proof (monitor_iteration_cases n s) as Hcases.
  rewrite Hexit in Hcases. destruct Hcases as [Hstopped _].
  eexists _, _.
  split; [rewrite (add_webhook_run webhook s1 Hprefix), Hstopped; reflexivity |].
  cbn [webhook_urls set_webhook_urls].
  apply elem_of_union_l, elem_of_singleton. reflexivity.
Qed.

End Properties.

(** * The theorems at work on the test double *)

Section Instances.
Import Demo.

Lemma three_webhooks_not_empty : three_webhooks <> ∅.
Proof.
  apply (non_empty_inhabited_L webhook1). unfold three_webhooks.
  apply elem_of_union_l, elem_of_union_l, elem_of_singleton. reflexivity.
Qed.

Lemma singleton_registry_valid (h : option string) (answers : list http_outcome) :
  @registry_valid externals (running {[webhook1]} h answers).
Proof.
  intros x Hx. simpl in Hx. apply elem_of_singleton in Hx. subst x. reflexivity.
Qed.

(** Three destinations, one of them dead: the call succeeds and the
    summary shows two deliveries out of three. *)
Example dispatch_three_one_dead :
  fst (@send_discord_webhook externals mirage_only three_webhooks (start []))
  = Ok true
  /\ last (stdout (snd (@send_discord_webhook externals mirage_only
                          three_webhooks (start []))))
     = Some (LogSummary 2 3).
Proof. split; vm_compute; reflexivity. Qed.

(** The same snapshot fetched twice: one notification, then none. *)
Example monitor_two_cycles :
  let s := running {[webhook1]} None [ok_response mirage_only; ok_response mirage_only] in
  let '(st, s') := @monitor_loop externals 2 0 s in
  st = Sleeping 2 /\ length (posts (http_log s')) = 1.
Proof. vm_compute. split; reflexivity. Qed.

Lemma build_embeds_groups_witness :
  section_view mirage_sections "normal_stock" = Some (Some [])
  /\ exists es s',
       @build_embeds externals (JDict mirage_sections) (start []) = (Ok es, s')
       /\ map embed_shape es
          = [(normal_title, Some 0); (mirage_title, Some 2)].
Proof.
  split; [reflexivity |].
  apply (@build_embeds_groups externals mirage_sections (Some [])
           (Some [item "Kitsune" 20 4000; item "Dragon" 25 5000]) (start []));
    reflexivity.
Defined.

Lemma build_embeds_groups_counterexample :
  section_view mirage_sections "normal_stock" = Some (Some [])
  /\ section_view mirage_sections "mirage_stock"
     = Some (Some [item "Kitsune" 20 4000; item "Dragon" 25 5000])
  /\ ~ (exists e s',
          @build_embeds externals mirage_only (start []) = (Ok [e], s')
          /\ embed_shape e = (mirage_title, Some 2))
  /\ section_view empty_sections "normal_stock" = Some (Some [])
  /\ section_view empty_sections "mirage_stock" = Some (Some [])
  /\ ~ (exists stamp s',
          @build_embeds externals both_empty (start [])
          = (Ok [fallback_embed stamp], s')).
Proof.
  repeat split; try reflexivity.
  - intros (e & s' & Hrun & _). vm_compute in Hrun. discriminate.
  - intros (stamp & s' & Hrun). vm_compute in Hrun. discriminate.
Qed.

Lemma has_data_changed_empty_snapshot_witness :
  py_truthy (JDict []) = false
  /\ @has_data_changed externals (JDict []) (start [])
     = (Ok true, @set_previous_data_hash externals None (start [])).
Proof.
  split; [reflexivity |].
  apply (@has_data_changed_empty_snapshot externals (JDict []) (start [])).
  reflexivity.
Defined.

Lemma has_data_changed_empty_snapshot_counterexample :
  let s := running {[webhook1]} (Some "abc") [] in
  py_truthy (JDict []) = false
  /\ @has_data_changed externals (JDict []) s
     = (Ok true, @set_previous_data_hash externals None s)
  /\ ~ (fst (@has_data_changed externals (JDict []) s) = Ok false
        /\ previous_data_hash (snd (@has_data_changed externals (JDict []) s))
           = previous_data_hash s).
Proof.
  simpl. repeat split.
  intros [Hfalse _]. vm_compute in Hfalse. discriminate.
Qed.

Lemma send_discord_webhook_each_once_witness :
  let s := start [] in
  let es := match fst (@build_embeds externals mirage_only s) with
            | Ok es => es
            | Raise _ => []
            end in
  exists calls s2,
    @send_discord_webhook externals mirage_only three_webhooks s
    = (Ok (0 <? count_delivered calls)%nat, s2)
    /\ http_log s2 = (http_log s ++ calls)%list
    /\ map call_url calls ≡ₚ elements three_webhooks
    /\ length calls = size three_webhooks
    /\ Forall (fun c => call_body c = Some (make_payload es)) calls
    /\ stdout s2
       = (stdout s ++ map call_line calls
            ++ [LogSummary (count_delivered calls) (size three_webhooks)])%list.
Proof.
  intros s es.
  apply (@send_discord_webhook_each_once externals mirage_only three_webhooks s
           (snd (@build_embeds externals mirage_only s)) es).
  - reflexivity.
  - exact three_webhooks_not_empty.
  - vm_compute. reflexivity.
Defined.

Lemma has_data_changed_first_then_same_witness :
  exists s1,
    @has_data_changed externals mirage_only (start []) = (Ok true, s1)
    /\ s1 = @set_previous_data_hash externals
              (@get_data_hash externals mirage_only) (start [])
    /\ previous_data_hash s1
       = Some (@md5_hexdigest externals (@json_dumps_sorted externals mirage_only))
    /\ @has_data_changed externals mirage_only s1 = (Ok false, s1).
Proof.
  apply (@has_data_changed_first_then_same externals mirage_only mirage_only
           (start [])); reflexivity.
Defined.

Lemma fetch_failure_keeps_fingerprint_witness :
  let s := running {[webhook1]} (Some "abc") [] in
  @fetch_fails externals (net s) = true
  /\ exists s1,
       @get_bloxfruit_data externals s = (Ok JNull, s1)
       /\ previous_data_hash s1 = previous_data_hash s
       /\ @monitor_cycle externals s = (Ok tt, @add_stdout externals LogNoData s1)
       /\ previous_data_hash (@add_stdout externals LogNoData s1)
          = previous_data_hash s.
Proof.
  intros s. split; [reflexivity |].
  apply (@fetch_failure_keeps_fingerprint externals s). reflexivity.
Defined.

Lemma add_webhook_already_present_witness :
  let s := running {[webhook1]} None [] in
  webhook1 ∈ webhook_urls s
  /\ fst (@add_webhook_and_start_monitoring externals webhook1 s)
     = Ok ({| response_status := 200;
              content :=
                {| add_message := "✅ Webhook added to existing monitoring";
                   webhook_added := webhook1;
                   add_total_webhooks := 1;
                   check_interval := "30 seconds" |} |}, [])
  /\ snd (@add_webhook_and_start_monitoring externals webhook1 s) = s.
Proof.
  intros s.
  assert (Hin : webhook1 ∈ webhook_urls s) by (apply elem_of_singleton; reflexivity).
  split; [exact Hin |].
  rewrite (@add_webhook_already_present externals webhook1 s
             (singleton_registry_valid None []) Hin).
  split; reflexivity.
Defined.

(** The answer to a second registration is the very answer a first
    registration gets: nothing in it says "already present". *)
Lemma add_webhook_already_present_counterexample :
  let again := running {[webhook1]} None [] in
  let fresh := running ∅ None [] in
  (webhook1 ∈ webhook_urls again)
  /\ (webhook1 ∉ webhook_urls fresh)
  /\ fst (@add_webhook_and_start_monitoring externals webhook1 again)
     = fst (@add_webhook_and_start_monitoring externals webhook1 fresh)
  /\ fst (@add_webhook_and_start_monitoring externals webhook1 again)
     = Ok ({| response_status := 200;
              content :=
                {| add_message := "✅ Webhook added to existing monitoring";
                   webhook_added := webhook1;
                   add_total_webhooks := 1;
                   check_interval := "30 seconds" |} |}, []).
Proof.
  cbv zeta. split; [apply elem_of_singleton; reflexivity |].
  split; [apply not_elem_of_empty |].
  split; reflexivity.
Qed.

Lemma remove_webhook_not_registered_witness :
  let s := running {[webhook1]} None [] in
  (webhook3 ∉ webhook_urls s)
  /\ @remove_webhook externals webhook3 s
     = (Raise (HTTPException 404 "Webhook not found"), s)
  /\ size (webhook_urls (snd (@remove_webhook externals webhook3 s)))
     = size (webhook_urls s).
Proof.
  intros s.
  assert (Hnotin : webhook3 ∉ webhook_urls s).
  { intros Hin. change (webhook3 ∈ ({[webhook1]} : gset string)) in Hin.
    apply elem_of_singleton in Hin. discriminate. }
  split; [exact Hnotin |].
  exact (@remove_webhook_not_registered externals webhook3 s Hnotin).
Defined.

Lemma remove_webhook_not_registered_counterexample :
  let s := start [] in
  ("" ∉ webhook_urls s)
  /\ @remove_webhook externals "" s
     = (Raise (HTTPException 400 "Webhook URL is required"), s)
  /\ fst (@remove_webhook externals "" s)
     <> Raise (HTTPException 404 "Webhook not found").
Proof.
  cbv zeta. split; [apply not_elem_of_empty |].
  split; [reflexivity | discriminate].
Qed.

Lemma send_discord_webhook_no_data_witness :
  py_truthy (JDict []) = false
  /\ @send_discord_webhook externals (JDict []) three_webhooks (start [])
     = (Ok false, start []).
Proof.
  split; [reflexivity |].
  apply (@send_discord_webhook_no_data externals (JDict []) three_webhooks (start [])).
  reflexivity.
Defined.



End Instances.

(** * The further properties at work on the test double *)

Section MoreInstances.
Import Demo.

Lemma webhook1_not_in_empty (h : option string) (answers : list http_outcome) :
  webhook1 ∉ webhook_urls (running ∅ h answers).
Proof. apply not_elem_of_empty. Qed.

Lemma add_webhook_fresh_witness :
  let s := running ∅ None [] in
  exists r tasks s',
    @add_webhook_and_start_monitoring externals webhook1 s = (Ok (r, tasks), s')
    /\ webhook1 ∈ webhook_urls s'
    /\ size (webhook_urls s') = 1
    /\ add_total_webhooks (content r) = 1
    /\ tasks = [].
Proof.
  intros s.
  destruct (@add_webhook_fresh externals webhook1 s eq_refl
              (webhook1_not_in_empty None []))
    as (r & tasks & s' & Hrun & _ & Hin & Hsize & _ & _ & Htotal & Htasks).
  exists r, tasks, s'. repeat split; assumption.
Defined.

Lemma add_webhook_rejected_witness :
  @add_webhook_and_start_monitoring externals "http://example.org/hook" (start [])
  = (Raise (HTTPException 400 "Invalid Discord webhook URL"), start [])
  /\ @add_webhook_and_start_monitoring externals "" (start [])
     = (Raise (HTTPException 400 "Webhook URL is required"), start []).
Proof.
  split.
  - exact (@add_webhook_rejected externals "http://example.org/hook" (start [])
             eq_refl).
  - exact (@add_webhook_rejected externals "" (start []) eq_refl).
Defined.

Lemma add_then_remove_webhook_witness :
  let s := running ∅ (Some "abc") [] in
  exists r,
    @remove_webhook externals webhook1
      (snd (@add_webhook_and_start_monitoring externals webhook1 s))
    = (Ok r, s)
    /\ response_status r = 200%Z
    /\ webhook_removed (content r) = webhook1
    /\ remaining_webhooks (content r) = size (webhook_urls s).
Proof.
  intros s.
  exact (@add_then_remove_webhook externals webhook1 s eq_refl
           (webhook1_not_in_empty (Some "abc") [])).
Defined.

Lemma remove_webhook_twice_witness :
  let s := running {[webhook1]} None [] in
  exists r s1,
    @remove_webhook externals webhook1 s = (Ok r, s1)
    /\ (webhook1 ∉ webhook_urls s1)
    /\ S (size (webhook_urls s1)) = size (webhook_urls s)
    /\ remaining_webhooks (content r) = size (webhook_urls s1)
    /\ @remove_webhook externals webhook1 s1
       = (Raise (HTTPException 404 "Webhook not found"), s1).
Proof.
  intros s.
  apply (@remove_webhook_twice externals webhook1 s eq_refl).
  apply elem_of_singleton. reflexivity.
Defined.

Lemma reachable_registry_valid_witness :
  @registry_valid externals
    (snd (@add_webhook_and_start_monitoring externals webhook1 (start []))).
Proof.
  apply (@reachable_registry_valid externals).
  apply (@reachable_step externals (start [])).
  - apply (@reachable_initial externals).
  - apply (@step_add externals).
Defined.

Lemma has_data_changed_twice_witness :
  let s := running {[webhook1]} (Some "abc") [] in
  @has_data_changed externals mirage_only
    (snd (@has_data_changed externals mirage_only s))
  = (Ok false, snd (@has_data_changed externals mirage_only s)).
Proof.
  intros s. exact (@has_data_changed_twice externals mirage_only s eq_refl).
Defined.

Lemma build_embeds_one_or_two_witness :
  (1 <= length (match fst (@build_embeds externals both_empty (start [])) with
                | Ok es => es
                | Raise _ => []
                end) <= 2)%nat
  /\ fst (@build_embeds externals malformed (start [])) = Raise AttributeError.
Proof.
  split.
  - apply (proj1 (@build_embeds_one_or_two externals both_empty (start []))
             _ (snd (@build_embeds externals both_empty (start [])))).
    vm_compute. reflexivity.
  - vm_compute. reflexivity.
Defined.

Lemma stock_field_defaults_witness :
  exists f,
    @stock_field externals "🍇" (JDict bare_item) (start []) = (Ok f, start [])
    /\ field_name f = "🍇 Unknown"
    /\ field_value f = "💰 **USD:** $N/A" ++ newline ++ "💎 **Robux:** N/A".
Proof.
  destruct (@stock_field_defaults externals "🍇" bare_item (start []))
    as (f & Hrun & _ & Hname & Hvalue & _).
  exists f. split; [exact Hrun |].
  split; [exact (Hname eq_refl) | exact (Hvalue eq_refl eq_refl)].
Defined.

Lemma send_discord_webhook_raises_witness :
  let s := start [] in
  let s' := snd (@send_discord_webhook externals malformed three_webhooks s) in
  @send_discord_webhook externals malformed three_webhooks s
  = (Raise AttributeError, s')
  /\ http_log s' = http_log s
  /\ stdout s' = stdout s.
Proof.
  intros s s'.
  assert (Hrun : @send_discord_webhook externals malformed three_webhooks s
                 = (Raise AttributeError, s')) by (vm_compute; reflexivity).
  destruct (@send_discord_webhook_raises externals malformed three_webhooks
              s s' AttributeError Hrun) as (_ & _ & Hlog & Hout & _).
  now repeat split.
Defined.

Lemma get_current_stock_answer_witness :
  let s := start [ok_response (JDict [])] in
  fst (@get_current_stock externals s)
  = Raise (HTTPException 503 "Unable to fetch stock data").
Proof.
  intros s.
  exact (proj1 (@get_current_stock_answer externals s
                  {| status_code := 200; json_body := Some (JDict []);
                     json_error := RequestException |}
                  {| clock := 1; script := [] |} (JDict [])
                  eq_refl eq_refl eq_refl)).
Defined.

Lemma monitor_iteration_outcome_witness :
  let s := running {[webhook1]} None [ok_response malformed] in
  monitoring_active (snd (@monitor_iteration externals 0 s)) = false
  /\ webhook_urls (snd (@monitor_iteration externals 0 s)) = webhook_urls s.
Proof.
  intros s.
  destruct (@monitor_iteration_outcome externals 0 s
              (snd (@monitor_iteration externals 0 s)) Exited)
    as [Hurls Hflag].
  - vm_compute. reflexivity.
  - now split.
Defined.

Lemma monitor_cycle_unchanged_witness :
  let s := running {[webhook1]} (@get_data_hash externals mirage_only)
             [ok_response mirage_only] in
  exists s1,
    @monitor_cycle externals s = (Ok tt, @add_stdout externals LogNoChange s1)
    /\ posts (http_log (@add_stdout externals LogNoChange s1)) = posts (http_log s).
Proof.
  intros s. exists (snd (@get_bloxfruit_data externals s)).
  destruct (@monitor_cycle_unchanged externals mirage_only
              (demo_dumps mirage_only) s
              (snd (@get_bloxfruit_data externals s)))
    as (Hrun & _ & Hposts); try reflexivity.
  now split.
Defined.

Lemma monitor_cycle_notifies_witness :
  let s := running three_webhooks None [ok_response mirage_only] in
  exists calls s',
    @monitor_cycle externals s = (Ok tt, s')
    /\ previous_data_hash s' = @get_data_hash externals mirage_only
    /\ map call_url calls ≡ₚ elements three_webhooks
    /\ last (stdout s')
       = Some (if (0 <? count_delivered calls)%nat
               then LogNotified else LogNotifyFailed).
Proof.
  intros s.
  set (s1 := snd (@get_bloxfruit_data externals s)).
  set (s2 := @add_stdout externals LogChangeDetected
               (@set_previous_data_hash externals
                  (@get_data_hash externals mirage_only) s1)).
  destruct (@monitor_cycle_notifies externals mirage_only s s1
              (snd (@build_embeds externals mirage_only s2))
              (match fst (@build_embeds externals mirage_only s2) with
               | Ok es => es
               | Raise _ => []
               end))
    as (calls & s' & Hrun & Hhash & _ & Hperm & _ & Hlast).
  - reflexivity.
  - reflexivity.
  - discriminate.
  - exact three_webhooks_not_empty.
  - vm_compute. reflexivity.
  - exists calls, s'. now repeat split.
Defined.

Lemma monitor_cycle_change_without_webhook_witness :
  let s := running ∅ None [ok_response mirage_only] in
  previous_data_hash (snd (@monitor_cycle externals s))
  = @get_data_hash externals mirage_only
  /\ posts (http_log (snd (@monitor_cycle externals s))) = [].
Proof.
  intros s.
  rewrite (@monitor_cycle_change_without_webhook externals mirage_only s
             (snd (@get_bloxfruit_data externals s)));
    [| reflexivity | reflexivity | discriminate | reflexivity].
  split; reflexivity.
Defined.

Lemma monitor_cycle_malformed_witness :
  let s := running {[webhook1]} None [ok_response malformed] in
  exists s3,
    @monitor_cycle externals s = (Raise AttributeError, s3)
    /\ previous_data_hash s3 = @get_data_hash externals malformed
    /\ posts (http_log s3) = posts (http_log s).
Proof.
  intros s.
  set (s1 := snd (@get_bloxfruit_data externals s)).
  set (s2 := @add_stdout externals LogChangeDetected
               (@set_previous_data_hash externals
                  (@get_data_hash externals malformed) s1)).
  exists (snd (@build_embeds externals malformed s2)).
  apply (@monitor_cycle_malformed externals malformed s s1).
  - reflexivity.
  - reflexivity.
  - discriminate.
  - apply (non_empty_inhabited_L webhook1). apply elem_of_singleton. reflexivity.
  - vm_compute. reflexivity.
Defined.

Lemma registration_after_start_witness :
  exists r1 r2 s1 s2 s3,
    @add_webhook_and_start_monitoring externals webhook1 (start [])
    = (Ok (r1, [MonitorTask]), s1)
    /\ @monitor_start externals s1 = (Ok tt, s2)
    /\ monitoring_active s2 = true
    /\ @add_webhook_and_start_monitoring externals webhook3 s2 = (Ok (r2, []), s3)
    /\ monitoring_active s3 = true
    /\ webhook_urls s3 = {[webhook3]} ∪ ({[webhook1]} ∪ ∅).
Proof.
  exact (@registration_after_start externals webhook1 webhook3 (start [])
           eq_refl eq_refl eq_refl).
Defined.

Lemma registration_twice_before_start_witness :
  exists r1 r2 s1 s2,
    @add_webhook_and_start_monitoring externals webhook1 (start [])
    = (Ok (r1, [MonitorTask]), s1)
    /\ monitoring_active s1 = false
    /\ @add_webhook_and_start_monitoring externals webhook3 s1
       = (Ok (r2, [MonitorTask]), s2)
    /\ monitoring_active s2 = false.
Proof.
  exact (@registration_twice_before_start externals webhook1 webhook3 (start [])
           eq_refl eq_refl eq_refl).
Defined.

Lemma registration_restarts_monitor_witness :
  let s := running {[webhook1]} None [ok_response malformed] in
  exists r s2,
    @add_webhook_and_start_monitoring externals webhook3
      (snd (@monitor_iteration externals 0 s))
    = (Ok (r, [MonitorTask]), s2)
    /\ webhook3 ∈ webhook_urls s2.
Proof.
  intros s.
  apply (@registration_restarts_monitor externals 0 webhook3 s).
  - vm_compute. reflexivity.
  - reflexivity.
Defined.

End MoreInstances.
